(** * pi-hcsr04: the HC-SR04 ultrasonic ranger driven through sysfs GPIO

    A shallow embedding of [gpiopin.c] and [hcsr04.c].

    - C [int] and [long] values are [Z] with the two's-complement wrap-around
      written out ([to_int], [to_long]).
    - C [double] values are binary64 primitive floats; every arithmetic
      operation of the source is the corresponding IEEE operation.
    - The kernel is an oracle ([Kernel]) that answers each library call; the
      process side ([World]) keeps the descriptor table, [errno] and the log
      of calls made.  Functions that touch the kernel live in the monad [M],
      whose second outcome is a failed [assert].  Calls whose result the
      source never looks at ([write], [lseek], [poll], [read], [usleep],
      [pthread_create], [pthread_detach]) are logged and nothing more.
    - A function taking a non-const [self] returns the updated struct; a
      function taking [const self] has none to return.
    - The measurement thread is not run concurrently: [pthread_create] is a
      logged call, and the loop is the function [hcsr04_loop], run for a
      given number of trips.
    - [gpiopin_get], which [hcsr04.c] does not call, is left out. *)

From Stdlib Require Import ZArith Lia Bool List String Ascii.
From Stdlib Require Import DecimalString.
From Stdlib Require DecimalPos.
From Stdlib Require Finite.
From Stdlib Require Import Floats Uint63.
Import ListNotations.

Local Open Scope Z_scope.
Set Warnings "-inexact-float".

(** ** C integers *)

(** Signed wrap-around to [bits] bits. *)
Definition wrap (bits : Z) (z : Z) : Z :=
  (z + 2 ^ (bits - 1)) mod 2 ^ bits - 2 ^ (bits - 1).

Definition INT_BITS : Z := 32.
(** [long] is 64 bits wide (LP64, the 64-bit Raspberry Pi OS).  Where [long]
    has 32 bits every [long] is already an [int] and the cast [(int)] below
    is the identity; the lemmas stated for values in [int] range cover it. *)
Definition LONG_BITS : Z := 64.

Definition INT_MIN : Z := - 2 ^ 31.
Definition INT_MAX : Z := 2 ^ 31 - 1.

Definition to_int (z : Z) : Z := wrap INT_BITS z.
Definition to_long (z : Z) : Z := wrap LONG_BITS z.

Definition is_int (z : Z) : Prop := INT_MIN <= z <= INT_MAX.

(** [snprintf (s, sizeof (s), "%d", n)]: the decimal digits of [n]. *)
Definition dec (n : Z) : string := NilZero.string_of_int (Z.to_int n).

(** [snprintf] into [char s[50]] keeps at most 49 characters. *)
Definition snprintf50 (s : string) : string := String.substring 0 49 s.

(** ** C doubles *)

(** Conversion [long -> double] (round to nearest even, as [of_uint63]). *)
Definition double_of_long (z : Z) : float :=
  if z =? - 2 ^ 63 then (-9223372036854775808)%float
  else if z <? 0 then PrimFloat.opp (PrimFloat.of_uint63 (Uint63.of_Z (- z)))
  else PrimFloat.of_uint63 (Uint63.of_Z z).

(** Conversion [double -> int]: the fractional part is discarded. *)
Definition int_of_double (f : float) : Z :=
  match Prim2SF f with
  | S754_finite s m e =>
      let v := if 0 <=? e then Z.pos m * 2 ^ e else Z.pos m / 2 ^ (- e) in
      to_int (if s then - v else v)
  | _ => 0
  end.

(** ** The kernel and the process *)

Inductive OpenFlags : Type :=
| O_RDWR
| O_RDONLY_NONBLOCK
| O_WRONLY.

(** What became of [fopen (path, "w"); fprintf; fclose]. *)
Inductive WriteOutcome : Type :=
| CantOpen (strerror : string)   (* fopen returned NULL *)
| Flushed                        (* the text reached the file *)
| Lost (strerror : string).      (* the stream opened, the write failed *)

(** The answers of the kernel.  The first argument is the number of calls
    the process has made so far, so the same call may be answered
    differently at different times. *)
Record Kernel : Type := mkKernel {
  k_write_file : nat -> string -> string -> WriteOutcome;
  k_open : nat -> string -> OpenFlags -> option string;
  k_gettimeofday : nat -> Z * Z
}.

Inductive Event : Type :=
| EvWriteFile (path text : string) (res : WriteOutcome)
| EvOpen (path : string) (flags : OpenFlags) (fd : Z)
| EvClose (fd : Z)
| EvWrite (fd : Z) (c : ascii)
| EvLseek (fd : Z)
| EvPoll (fd : Z) (timeout_ms : Z)
| EvRead (fd : Z) (count : Z)
| EvUsleep (usec : Z)
| EvGettimeofday (sec usec : Z)
| EvPthreadCreate (tid : Z)
| EvPthreadDetach (tid : Z).

Record World : Type := mkWorld {
  w_tick : nat;          (* calls made so far *)
  w_fds : list Z;        (* descriptors open in the process *)
  w_errno : string;      (* strerror (errno) *)
  w_log : list Event     (* calls made, most recent first *)
}.

(** A process as it starts: stdin, stdout and stderr open. *)
Definition world0 : World := mkWorld 0 [0; 1; 2] "Success" [].

Inductive Res (A : Type) : Type :=
| Ok (a : A) (w : World)
| Abort (assertion : string) (w : World).
Arguments Ok {A} a w.
Arguments Abort {A} assertion w.

Definition M (A : Type) : Type := World -> Res A.

Definition ret {A} (a : A) : M A := fun w => Ok a w.

Definition bind {A B} (m : M A) (f : A -> M B) : M B :=
  fun w => match m w with
           | Ok a w' => f a w'
           | Abort msg w' => Abort msg w'
           end.

Declare Scope m_scope.
Delimit Scope m_scope with m.
Notation "x <- c1 ;; c2" := (bind c1 (fun x => c2))
  (at level 100, c1 at next level, right associativity) : m_scope.
Notation "' pat <- c1 ;; c2" := (bind c1 (fun x => match x with pat => c2 end))
  (at level 100, pat pattern, c1 at next level, right associativity) : m_scope.
Notation "c1 ;; c2" := (bind c1 (fun _ => c2))
  (at level 100, right associativity) : m_scope.

(** [assert (b)] *)
Definition c_assert (b : bool) (text : string) : M unit :=
  fun w => if b then Ok tt w else Abort text w.

Definition log_call (e : Event) (w : World) : World :=
  mkWorld (S (w_tick w)) (w_fds w) (w_errno w) (e :: w_log w).

Definition emit (e : Event) : M unit := fun w => Ok tt (log_call e w).

(** The descriptor handed out by a successful [open]: the lowest one that
    is not open.  [lowest_free] looks at [n], [n + 1], ... and stops at the
    first that is free; among as many candidates as there are open
    descriptors, plus one, one is. *)
Fixpoint lowest_free (fuel : nat) (n : Z) (fds : list Z) : Z :=
  match fuel with
  | O => n
  | S fuel' =>
      if existsb (Z.eqb n) fds then lowest_free fuel' (n + 1) fds else n
  end.

Definition next_fd (fds : list Z) : Z := lowest_free (List.length fds) 0 fds.

Fixpoint remove_fd (fd : Z) (fds : list Z) : list Z :=
  match fds with
  | [] => []
  | x :: rest => if x =? fd then rest else x :: remove_fd fd rest
  end.

Section Program.

Variable K : Kernel.

(** [open (path, flags)]: a descriptor, or -1 with [errno] set. *)
Definition sys_open (path : string) (flags : OpenFlags) : M Z :=
  fun w =>
    match k_open K (w_tick w) path flags with
    | None =>
        let fd := next_fd (w_fds w) in
        Ok fd (mkWorld (S (w_tick w)) (fd :: w_fds w) (w_errno w)
                       (EvOpen path flags fd :: w_log w))
    | Some e =>
        Ok (-1) (mkWorld (S (w_tick w)) (w_fds w) e
                         (EvOpen path flags (-1) :: w_log w))
    end.

(** [close (fd)] *)
Definition sys_close (fd : Z) : M unit :=
  fun w => Ok tt (mkWorld (S (w_tick w)) (remove_fd fd (w_fds w)) (w_errno w)
                          (EvClose fd :: w_log w)).

(** [fopen (filename, "w")], and when it opened, [fprintf] and [fclose],
    neither of whose results the source looks at.  Returns whether the
    stream opened. *)
Definition sys_fopen_write_close (filename text : string) : M bool :=
  fun w =>
    let res := k_write_file K (w_tick w) filename text in
    let errno' := match res with
                  | CantOpen e => e
                  | Flushed => w_errno w
                  | Lost e => e
                  end in
    Ok (match res with CantOpen _ => false | _ => true end)
       (mkWorld (S (w_tick w)) (w_fds w) errno'
                (EvWriteFile filename text res :: w_log w)).

Definition strerror_errno : M string := fun w => Ok (w_errno w) w.

(** [gettimeofday (&tv, NULL)] *)
Definition sys_gettimeofday : M (Z * Z) :=
  fun w =>
    let tv := k_gettimeofday K (w_tick w) in
    Ok tv (log_call (EvGettimeofday (fst tv) (snd tv)) w).

(** [usleep (usec)]: the argument becomes a [useconds_t], an unsigned
    int. *)
Definition to_useconds (z : Z) : Z := z mod 2 ^ 32.

Definition usleep (usec : Z) : M unit := emit (EvUsleep (to_useconds usec)).


(** ** gpiopin.c *)

Record GPIOPin : Type := mkGPIOPin {
  pin : Z;
  value_fd : Z
}.

Inductive GPIOPinDirection : Type :=
| GPIOPIN_IN
| GPIOPIN_OUT.

Inductive GPIOPinTrigger : Type :=
| GPIOPIN_NONE
| GPIOPIN_RISING
| GPIOPIN_FALLING
| GPIOPIN_BOTH.

(** Modelled from the spec: [defs.h], which defines BOOL, TRUE, FALSE, HIGH
    and LOW, is not among the sources.  BOOL is [bool]; the sound line is
    driven "high ... then low" and [gpiopin_set] "writes a boolean level",
    so HIGH is true and LOW is false. *)
Definition HIGH : bool := true.
Definition LOW : bool := false.

Definition set_value_fd (self : GPIOPin) (fd : Z) : GPIOPin :=
  mkGPIOPin (pin self) fd.

Definition gpiopin_create (pin : Z) : M GPIOPin := ret (mkGPIOPin pin (-1)).

(** ["Can't open %s for writing: %s"] *)
Definition cant_open (filename err : string) : string :=
  ("Can't open " ++ filename ++ " for writing: " ++ err)%string.

(** [error] tells whether the caller passed a non-NULL [char **error]; the
    second component of the result is what was stored through it. *)
Definition gpiopin_write_to_file (filename text : string) (error : bool)
  : M (bool * option string) :=
  (opened <- sys_fopen_write_close filename text ;;
   if opened then ret (true, None)
   else if error then
     e <- strerror_errno ;;
     ret (false, Some (cant_open filename e))
   else ret (false, None))%m.

Definition export_file : string := "/sys/class/gpio/export".
Definition unexport_file : string := "/sys/class/gpio/unexport".

Definition gpio_file (pin : Z) (leaf : string) : string :=
  snprintf50 ("/sys/class/gpio/gpio" ++ dec pin ++ leaf)%string.

Definition gpiopin_init (self : GPIOPin) (dir : GPIOPinDirection)
    (error : bool) : M (bool * GPIOPin * option string) :=
  (let s := snprintf50 (dec (pin self)) in
   ' (ret0, err) <- gpiopin_write_to_file export_file s error ;;
   if ret0 then
     let s := gpio_file (pin self) "/direction" in
     (match dir with
      | GPIOPIN_OUT => gpiopin_write_to_file s "out" false
      | GPIOPIN_IN => gpiopin_write_to_file s "in" false
      end) ;;
     let s := gpio_file (pin self) "/value" in
     fd <- (match dir with
            | GPIOPIN_OUT => sys_open s O_RDWR
            | GPIOPIN_IN => sys_open s O_RDONLY_NONBLOCK
            end) ;;
     let self := set_value_fd self fd in
     if 0 <=? value_fd self then ret (true, self, err)
     else if error then
       e <- strerror_errno ;;
       ret (false, self, Some (cant_open s e))
     else ret (false, self, err)
   else ret (false, self, err))%m.

Definition gpiopin_uninit (self : GPIOPin) : M GPIOPin :=
  ((if 0 <=? value_fd self then sys_close (value_fd self) else ret tt) ;;
   let self := set_value_fd self (-1) in
   let s := snprintf50 (dec (pin self)) in
   gpiopin_write_to_file unexport_file s false ;;
   ret self)%m.

Definition gpiopin_destroy (self : GPIOPin) : M GPIOPin :=
  gpiopin_uninit self.

Definition gpiopin_set (self : GPIOPin) (val : bool) : M unit :=
  (c_assert (0 <=? value_fd self) "self->value_fd >= 0" ;;
   let c := if val then "1"%char else "0"%char in
   emit (EvWrite (value_fd self) c))%m.

Definition gpiopin_set_trigger (self : GPIOPin) (trigger : GPIOPinTrigger)
  : M unit :=
  (let s := gpio_file (pin self) "/edge" in
   f <- sys_open s O_WRONLY ;;
   c_assert (0 <=? f) "f >= 0" ;;
   (match trigger with
    | GPIOPIN_BOTH => gpiopin_write_to_file s "both" false
    | GPIOPIN_RISING => gpiopin_write_to_file s "rising" false
    | GPIOPIN_FALLING => gpiopin_write_to_file s "falling" false
    | GPIOPIN_NONE => gpiopin_write_to_file s "none" false
    end) ;;
   sys_close f)%m.

Definition gpiopin_wait_for_trigger (self : GPIOPin) (usec : Z) : M unit :=
  (c_assert (0 <=? value_fd self) "self->value_fd >= 0" ;;
   emit (EvLseek (value_fd self)) ;;
   emit (EvPoll (value_fd self) (Z.quot usec 1000)) ;;
   emit (EvRead (value_fd self) 50))%m.

(** ** hcsr04.h, hcsr04.c *)

Definition HCSR04_MIN_CYCLE : Z := 60.
Definition HCSR04_MAX_RANGE : float := 4.0%float.
Definition HCSR04_VALID_SAMPLES : Z := 4.
Definition USEC_TO_METRES : float := 0.0001715%float.

Record HCSR04 : Type := mkHCSR04 {
  sound_pin : Z;
  echo_pin : Z;
  max_time : Z;
  pthread : Z;
  stop : bool;
  gpiopin_sound : GPIOPin;
  gpiopin_echo : GPIOPin;
  cycle_usec : Z;
  avg : float;
  smoothing : float;
  good_count : Z
}.

Definition set_avg (self : HCSR04) (v : float) : HCSR04 :=
  mkHCSR04 (sound_pin self) (echo_pin self) (max_time self) (pthread self)
    (stop self) (gpiopin_sound self) (gpiopin_echo self) (cycle_usec self)
    v (smoothing self) (good_count self).

Definition set_good_count (self : HCSR04) (v : Z) : HCSR04 :=
  mkHCSR04 (sound_pin self) (echo_pin self) (max_time self) (pthread self)
    (stop self) (gpiopin_sound self) (gpiopin_echo self) (cycle_usec self)
    (avg self) (smoothing self) v.

Definition set_gpiopin_sound (self : HCSR04) (p : GPIOPin) : HCSR04 :=
  mkHCSR04 (sound_pin self) (echo_pin self) (max_time self) (pthread self)
    (stop self) p (gpiopin_echo self) (cycle_usec self)
    (avg self) (smoothing self) (good_count self).

Definition set_gpiopin_echo (self : HCSR04) (p : GPIOPin) : HCSR04 :=
  mkHCSR04 (sound_pin self) (echo_pin self) (max_time self) (pthread self)
    (stop self) (gpiopin_sound self) p (cycle_usec self)
    (avg self) (smoothing self) (good_count self).

Definition set_pthread (self : HCSR04) (pt : Z) : HCSR04 :=
  mkHCSR04 (sound_pin self) (echo_pin self) (max_time self) pt
    (stop self) (gpiopin_sound self) (gpiopin_echo self) (cycle_usec self)
    (avg self) (smoothing self) (good_count self).

Definition set_stop (self : HCSR04) (b : bool) : HCSR04 :=
  mkHCSR04 (sound_pin self) (echo_pin self) (max_time self) (pthread self)
    b (gpiopin_sound self) (gpiopin_echo self) (cycle_usec self)
    (avg self) (smoothing self) (good_count self).

Definition get_system_time_usec : M Z :=
  (tv <- sys_gettimeofday ;;
   ret (to_long (snd tv + to_long (fst tv * 1000000))))%m.

(** [malloc], [memset (self, 0, ...)], then the assignments. *)
Definition hcsr04_create (sound_pin echo_pin cycle_msec : Z)
    (smoothing : float) : M HCSR04 :=
  (snd_pin <- gpiopin_create sound_pin ;;
   ech_pin <- gpiopin_create echo_pin ;;
   ret (mkHCSR04 sound_pin echo_pin
          (int_of_double (HCSR04_MAX_RANGE / USEC_TO_METRES)%float)
          0 false snd_pin ech_pin
          (to_int (cycle_msec * 1000))
          0%float smoothing 0))%m.

(** The end of [hcsr04_read_one]: from [end - start] to the value returned.
    [diff] is the [int] the subtraction is cast to; the product is taken
    with the [long] itself. *)
Definition read_one_result (max_time elapsed : Z) : float :=
  let diff := to_int elapsed in
  if diff >? max_time then (-1.0)%float
  else (USEC_TO_METRES * double_of_long elapsed)%float.

Definition hcsr04_read_one (self : HCSR04) : M float :=
  (gpiopin_set (gpiopin_sound self) HIGH ;;
   usleep 100 ;;
   gpiopin_set (gpiopin_sound self) LOW ;;
   gpiopin_set_trigger (gpiopin_echo self) GPIOPIN_RISING ;;
   gpiopin_wait_for_trigger (gpiopin_echo self) 500000 ;;
   start <- get_system_time_usec ;;
   gpiopin_set_trigger (gpiopin_echo self) GPIOPIN_FALLING ;;
   gpiopin_wait_for_trigger (gpiopin_echo self) 500000 ;;
   end_ <- get_system_time_usec ;;
   ret (read_one_result (max_time self) (to_long (end_ - start))))%m.

(** What one trip through the [while] body does to the struct, given the
    value [d] that [hcsr04_read_one] returned. *)
Definition loop_update (self : HCSR04) (d : float) : HCSR04 :=
  if (0 <? d)%float then
    let self :=
      set_avg self (d * (1 - smoothing self) + avg self * smoothing self)%float in
    let self := set_good_count self (to_int (good_count self + 1)) in
    if good_count self >? HCSR04_VALID_SAMPLES
    then set_good_count self HCSR04_VALID_SAMPLES
    else self
  else
    let self := set_good_count self (to_int (good_count self - 1)) in
    if good_count self <? 0 then set_good_count self 0 else self.

Definition hcsr04_loop_body (self : HCSR04) : M HCSR04 :=
  (d <- hcsr04_read_one self ;;
   let self := loop_update self d in
   usleep (cycle_usec self) ;;
   ret self)%m.

(** [while (!self->stop) { ... }], for at most [n] trips. *)
Fixpoint hcsr04_loop (n : nat) (self : HCSR04) : M HCSR04 :=
  match n with
  | O => ret self
  | S n' =>
      if stop self then ret self
      else (self' <- hcsr04_loop_body self ;; hcsr04_loop n' self')%m
  end.

Definition pthread_create : M Z :=
  fun w => let tid := Z.of_nat (S (w_tick w)) in
           Ok tid (log_call (EvPthreadCreate tid) w).

Definition pthread_detach (pt : Z) : M unit := emit (EvPthreadDetach pt).

Definition hcsr04_init (self : HCSR04) (error : bool)
  : M (bool * HCSR04 * option string) :=
  (let self := set_avg self 0%float in
   let self := set_good_count self 0 in
   ' (ok, echo, err) <- gpiopin_init (gpiopin_echo self) GPIOPIN_IN error ;;
   let self := set_gpiopin_echo self echo in
   if ok then
     ' (_, sound, _) <- gpiopin_init (gpiopin_sound self) GPIOPIN_OUT false ;;
     let self := set_gpiopin_sound self sound in
     gpiopin_set (gpiopin_sound self) LOW ;;
     pt <- pthread_create ;;
     pthread_detach pt ;;
     let self := set_pthread self pt in
     ret (true, self, err)
   else ret (false, self, err))%m.

Definition hcsr04_uninit (self : HCSR04) : M HCSR04 :=
  (let self := set_stop self true in
   sound <- gpiopin_uninit (gpiopin_sound self) ;;
   let self := set_gpiopin_sound self sound in
   echo <- gpiopin_uninit (gpiopin_echo self) ;;
   ret (set_gpiopin_echo self echo))%m.

Definition hcsr04_destroy (self : HCSR04) : M HCSR04 :=
  (self <- hcsr04_uninit self ;;
   sound <- gpiopin_destroy (gpiopin_sound self) ;;
   let self := set_gpiopin_sound self sound in
   echo <- gpiopin_destroy (gpiopin_echo self) ;;
   ret (set_gpiopin_echo self echo))%m.

Definition hcsr04_is_distance_valid (self : HCSR04) : M bool :=
  ret (good_count self >=? HCSR04_VALID_SAMPLES).

Definition hcsr04_get_distance (self : HCSR04) : M float :=
  (valid <- hcsr04_is_distance_valid self ;;
   if valid then ret (avg self) else ret (-1.0)%float)%m.

End Program.

(** ** Runs of the loop and sample values *)

(** The struct after the loop has taken the readings [ds], oldest first. *)
Definition run_cycles (ds : list float) (self : HCSR04) : HCSR04 :=
  fold_left loop_update ds self.

(** The test the loop applies to a reading: [d > 0]. *)
Definition accepted (d : float) : bool := (0 <? d)%float.

(** The [good_count] invariant. *)
Definition count_ok (self : HCSR04) : Prop :=
  0 <= good_count self <= HCSR04_VALID_SAMPLES.

(** ** Sample kernels, structs and worlds *)

(** A kernel that grants everything; its clock advances 100 us per call. *)
Definition kernel_ok : Kernel :=
  mkKernel (fun _ _ _ => Flushed) (fun _ _ _ => None)
           (fun n => (1700000000, 100 * Z.of_nat n)).

(** As [kernel_ok], with a clock that advances 10 ms per call. *)
Definition kernel_slow : Kernel :=
  mkKernel (fun _ _ _ => Flushed) (fun _ _ _ => None)
           (fun n => (1700000000, 10000 * Z.of_nat n)).

(** As [kernel_ok], with a clock that stands still. *)
Definition kernel_frozen : Kernel :=
  mkKernel (fun _ _ _ => Flushed) (fun _ _ _ => None)
           (fun _ => (1700000000, 0)).

(** As [kernel_ok], with a wall clock that is set forward by 2^31 us
    (35 min 47 s) after the twentieth call. *)
Definition kernel_clock_step : Kernel :=
  mkKernel (fun _ _ _ => Flushed) (fun _ _ _ => None)
           (fun n => if (n <? 20)%nat then (1700000000, 0)
                     else (1700002147, 483648)).

(** The struct [main] creates: pins 17 and 27, 4 * HCSR04_MIN_CYCLE ms,
    smoothing 0.5. *)
Definition sensor_created : HCSR04 :=
  mkHCSR04 17 27 23323 0 false (mkGPIOPin 17 (-1)) (mkGPIOPin 27 (-1))
           240000 0%float 0.5%float 0.

(** [sensor_created] after [hcsr04_init] under a kernel that grants
    everything, and the world then. *)
Definition sensor_ready : HCSR04 :=
  mkHCSR04 17 27 23323 8 false (mkGPIOPin 17 4) (mkGPIOPin 27 3)
           240000 0%float 0.5%float 0.

Definition world_ready : World :=
  mkWorld 9 [4; 3; 0; 1; 2] "Success"
    [EvPthreadDetach 8; EvPthreadCreate 8; EvWrite 4 "0";
     EvOpen "/sys/class/gpio/gpio17/value" O_RDWR 4;
     EvWriteFile "/sys/class/gpio/gpio17/direction" "out" Flushed;
     EvWriteFile "/sys/class/gpio/export" "17" Flushed;
     EvOpen "/sys/class/gpio/gpio27/value" O_RDONLY_NONBLOCK 3;
     EvWriteFile "/sys/class/gpio/gpio27/direction" "in" Flushed;
     EvWriteFile "/sys/class/gpio/export" "27" Flushed].

(** [sensor_ready] once the loop has an estimate of 1 m it holds valid. *)
Definition sensor_tracking : HCSR04 :=
  set_good_count (set_avg sensor_ready 1%float) HCSR04_VALID_SAMPLES.

(** The world after one [hcsr04_read_one] of [sensor_tracking] from
    [world_ready], under the slow and under the frozen clock. *)
Definition world_of {A} (r : Res A) : World :=
  match r with
  | Ok _ w => w
  | Abort _ w => w
  end.

Definition world_after_timeout : World :=
  world_of (hcsr04_read_one kernel_slow sensor_tracking world_ready).

Definition world_after_zero : World :=
  world_of (hcsr04_read_one kernel_frozen sensor_tracking world_ready).

(** The world after four trips of the loop from [sensor_ready] and
    [world_ready] under the frozen clock. *)
Definition world_after_zeros : World :=
  world_of (hcsr04_loop kernel_frozen 4 sensor_ready world_ready).

Definition world_after_clock_step : World :=
  world_of (hcsr04_read_one kernel_clock_step sensor_ready world_ready).

(** A kernel under which /sys/class/gpio/export cannot be opened. *)
Definition kernel_denied : Kernel :=
  mkKernel (fun _ path _ => if String.eqb path export_file
                            then CantOpen "Permission denied" else Flushed)
           (fun _ _ _ => None)
           (fun n => (1700000000, 100 * Z.of_nat n)).

(** A kernel under which the lines are exported already: the export file
    opens, the write to it fails with EBUSY, everything else is granted. *)
Definition kernel_busy : Kernel :=
  mkKernel (fun _ path _ => if String.eqb path export_file
                            then Lost "Device or resource busy" else Flushed)
           (fun _ _ _ => None)
           (fun n => (1700000000, 100 * Z.of_nat n)).

(** A kernel under which the value file of line 17 cannot be opened. *)
Definition kernel_no_sound : Kernel :=
  mkKernel (fun _ _ _ => Flushed)
           (fun _ path _ => if String.eqb path "/sys/class/gpio/gpio17/value"
                            then Some "No such file or directory"%string else None)
           (fun n => (1700000000, 100 * Z.of_nat n)).

Definition world_sound_failed : World :=
  world_of (hcsr04_init kernel_no_sound sensor_created true world0).

(** The flags [gpiopin_init] opens the value file with, and the text it
    writes to the direction file. *)
Definition value_flags (dir : GPIOPinDirection) : OpenFlags :=
  match dir with
  | GPIOPIN_OUT => O_RDWR
  | GPIOPIN_IN => O_RDONLY_NONBLOCK
  end.

Definition direction_text (dir : GPIOPinDirection) : string :=
  match dir with
  | GPIOPIN_OUT => "out"
  | GPIOPIN_IN => "in"
  end.

(** Whether each of the [n] elapsed times from [e] on gives a distance
    within 0 .. HCSR04_MAX_RANGE. *)
Fixpoint distances_in_range (n : nat) (e : Z) : bool :=
  match n with
  | O => true
  | S n' =>
      (let d := read_one_result 23323 e in
       ((0 <=? d) && (d <=? HCSR04_MAX_RANGE))%float)
      && distances_in_range n' (e + 1)
  end.

(** Destructs, in [H], every computation a [bind] runs. *)
Ltac step_binds H :=
  unfold bind in H;
  repeat match type of H with
         | context [match ?m with Ok _ _ => _ | Abort _ _ => _ end] =>
             let r := fresh "r" in
             destruct m as [? ? | ? ?] eqn:r; try discriminate H
         end.

(** The text [gpiopin_set_trigger] writes to the edge file. *)
Definition trigger_text (trigger : GPIOPinTrigger) : string :=
  match trigger with
  | GPIOPIN_BOTH => "both"
  | GPIOPIN_RISING => "rising"
  | GPIOPIN_FALLING => "falling"
  | GPIOPIN_NONE => "none"
  end.

(** The value [get_system_time_usec] makes of a [struct timeval]. *)
Definition stamp (tv : Z * Z) : Z :=
  to_long (snd tv + to_long (fst tv * 1000000)).

(** [s] is a NaN or carries the sign [b]. *)
Definition has_sign (b : bool) (s : spec_float) : Prop :=
  match s with
  | S754_nan => True
  | S754_zero b' | S754_infinity b' | S754_finite b' _ _ => b' = b
  end.

(** A [struct timeval] whose microsecond count fits a [long]. *)
Definition valid_timeval (tv : Z * Z) : Prop :=
  0 <= fst tv <= 9000000000000 /\ 0 <= snd tv < 1000000.

(** Whether each of the [n] elapsed times from [e] on gives a reading the
    loop accepts. *)
Fixpoint readings_accepted (n : nat) (e : Z) : bool :=
  match n with
  | O => true
  | S n' => accepted (read_one_result 23323 e) && readings_accepted n' (e + 1)
  end.

(** A kernel under which the edge file of line 27 cannot be opened. *)
Definition kernel_no_edge : Kernel :=
  mkKernel (fun _ _ _ => Flushed)
           (fun _ path _ => if String.eqb path "/sys/class/gpio/gpio27/edge"
                            then Some "Permission denied"%string else None)
           (fun n => (1700000000, 100 * Z.of_nat n)).

(** A kernel under which the direction file of line 17 cannot be opened. *)
Definition kernel_no_direction : Kernel :=
  mkKernel (fun _ path _ =>
              if String.eqb path "/sys/class/gpio/gpio17/direction"
              then CantOpen "Permission denied" else Flushed)
           (fun _ _ _ => None)
           (fun n => (1700000000, 100 * Z.of_nat n)).

(** The value of a computation that returned, [d] of one that did not. *)
Definition value_of {A} (r : Res A) (d : A) : A :=
  match r with
  | Ok a _ => a
  | Abort _ _ => d
  end.

(** [sensor_ready] after [hcsr04_uninit], and after a second
    [hcsr04_init], with the worlds then. *)
Definition sensor_stopped : HCSR04 :=
  value_of (hcsr04_uninit kernel_ok sensor_ready world_ready) sensor_ready.

Definition world_stopped : World :=
  world_of (hcsr04_uninit kernel_ok sensor_ready world_ready).

Definition sensor_restarted : HCSR04 :=
  snd (fst (value_of (hcsr04_init kernel_ok sensor_stopped true world_stopped)
                     (false, sensor_stopped, None))).

Definition world_restarted : World :=
  world_of (hcsr04_init kernel_ok sensor_stopped true world_stopped).

(** ** C integers: facts *)

Lemma to_int_id (z : Z) : is_int z -> to_int z = z.
Proof.
  unfold is_int, INT_MIN, INT_MAX, to_int, wrap, INT_BITS.
  change (2 ^ (32 - 1)) with 2147483648.
  change (2 ^ 31) with 2147483648.
  change (2 ^ 32) with 4294967296.
  intros H. rewrite Z.mod_small by lia. lia.
Qed.

Lemma to_int_range (z : Z) : is_int (to_int z).
Proof.
  unfold is_int, INT_MIN, INT_MAX, to_int, wrap, INT_BITS.
  change (2 ^ (32 - 1)) with 2147483648.
  change (2 ^ 31) with 2147483648.
  change (2 ^ 32) with 4294967296.
  pose proof (Z.mod_pos_bound (z + 2147483648) 4294967296 eq_refl). lia.
Qed.

(** ** The validity counter *)

Lemma loop_update_accepted (self : HCSR04) (d : float) :
  accepted d = true ->
  INT_MIN <= good_count self < INT_MAX ->
  loop_update self d =
  set_good_count
    (set_avg self (d * (1 - smoothing self) + avg self * smoothing self)%float)
    (Z.min (good_count self + 1) HCSR04_VALID_SAMPLES).
Proof.
  unfold accepted, loop_update. intros Hd Hgc. rewrite Hd. cbn -[to_int Z.add].
  rewrite to_int_id by (unfold is_int, INT_MIN, INT_MAX in *; lia).
  unfold HCSR04_VALID_SAMPLES.
  destruct (good_count self + 1 >? 4) eqn:E; unfold set_good_count; cbn;
    f_equal; lia.
Qed.

Lemma loop_update_rejected (self : HCSR04) (d : float) :
  accepted d = false ->
  INT_MIN < good_count self <= INT_MAX ->
  loop_update self d = set_good_count self (Z.max 0 (good_count self - 1)).
Proof.
  unfold accepted, loop_update. intros Hd Hgc. rewrite Hd. cbn -[to_int Z.sub].
  rewrite to_int_id by (unfold is_int, INT_MIN, INT_MAX in *; lia).
  destruct (good_count self - 1 <? 0) eqn:E; unfold set_good_count; cbn;
    f_equal; lia.
Qed.

Lemma count_ok_int (self : HCSR04) :
  count_ok self -> INT_MIN < good_count self < INT_MAX.
Proof.
  unfold count_ok, HCSR04_VALID_SAMPLES, INT_MIN, INT_MAX.
  change (2 ^ 31) with 2147483648. lia.
Qed.

Lemma good_count_step (self : HCSR04) (d : float) :
  count_ok self ->
  good_count (loop_update self d) =
  if accepted d then Z.min (good_count self + 1) HCSR04_VALID_SAMPLES
  else Z.max (good_count self - 1) 0.
Proof.
  intros H. pose proof (count_ok_int self H) as Hi.
  destruct (accepted d) eqn:E.
  - rewrite loop_update_accepted by (auto; lia). reflexivity.
  - rewrite loop_update_rejected by (auto; lia). cbn. lia.
Qed.

Lemma count_ok_step (self : HCSR04) (d : float) :
  count_ok self -> count_ok (loop_update self d).
Proof.
  intros H. unfold count_ok. rewrite good_count_step by assumption.
  unfold count_ok, HCSR04_VALID_SAMPLES in *.
  destruct (accepted d); lia.
Qed.

Lemma count_ok_run (ds : list float) :
  forall self, count_ok self -> count_ok (run_cycles ds self).
Proof.
  unfold run_cycles.
  induction ds as [| d ds IH]; intros self H; cbn; [assumption |].
  apply IH, count_ok_step, H.
Qed.



Lemma good_count_run_accepted (ds : list float) :
  forall self,
    count_ok self ->
    Forall (fun d => accepted d = true) ds ->
    good_count (run_cycles ds self) =
    Z.min (good_count self + Z.of_nat (List.length ds)) HCSR04_VALID_SAMPLES.
Proof.
  unfold run_cycles.
  induction ds as [| d ds IH]; intros self H Hall.
  - cbn. unfold count_ok in H. lia.
  - inversion Hall as [| ? ? Hd Hds]; subst.
    cbn [fold_left List.length].
    rewrite IH by (auto using count_ok_step).
    rewrite good_count_step by assumption. rewrite Hd.
    unfold count_ok, HCSR04_VALID_SAMPLES in *. lia.
Qed.

Lemma is_distance_valid_spec (self : HCSR04) (w : World) :
  hcsr04_is_distance_valid self w =
  Ok (HCSR04_VALID_SAMPLES <=? good_count self) w.
Proof.
  unfold hcsr04_is_distance_valid, ret. f_equal.
  rewrite Z.geb_leb. reflexivity.
Qed.

(** For readings the loop accepts ([d > 0]): from a count below the
    threshold, HCSR04_VALID_SAMPLES of them in a row make
    [hcsr04_is_distance_valid] true, and one reading the loop does not
    accept right after makes it false again.  The test is
    [good_count >= HCSR04_VALID_SAMPLES]: a count equal to the threshold is
    enough.  Readings of exactly 0, which are not negative, are not among
    those the loop accepts. *)
Lemma valid_after_threshold_samples (self : HCSR04) (ds : list float) :
  0 <= good_count self < HCSR04_VALID_SAMPLES ->
  Z.of_nat (List.length ds) = HCSR04_VALID_SAMPLES ->
  Forall (fun d => accepted d = true) ds ->
  (forall w, hcsr04_is_distance_valid (run_cycles ds self) w = Ok true w) /\
  (forall d w,
      accepted d = false ->
      hcsr04_is_distance_valid (loop_update (run_cycles ds self) d) w
      = Ok false w) /\
  (forall s w,
      exists b, hcsr04_is_distance_valid s w = Ok b w /\
                (b = true <-> good_count s >= HCSR04_VALID_SAMPLES)) /\
  (forall s w,
      good_count s = HCSR04_VALID_SAMPLES ->
      hcsr04_is_distance_valid s w = Ok true w).
Proof.
  intros Hgc Hlen Hall.
  assert (Hok : count_ok self) by (unfold count_ok; lia).
  pose proof (good_count_run_accepted ds self Hok Hall) as Hrun.
  pose proof (count_ok_run ds self Hok) as Hokr.
  rewrite Hlen in Hrun.
  assert (Hfull : good_count (run_cycles ds self) = HCSR04_VALID_SAMPLES)
    by (unfold HCSR04_VALID_SAMPLES in *; lia).
  repeat split.
  - intros w. rewrite is_distance_valid_spec, Hfull. reflexivity.
  - intros d w Hd. rewrite is_distance_valid_spec.
    rewrite good_count_step by assumption. rewrite Hd, Hfull. reflexivity.
  - intros s w. rewrite is_distance_valid_spec.
    exists (HCSR04_VALID_SAMPLES <=? good_count s). split; [reflexivity |].
    rewrite Z.leb_le. lia.
  - intros s w Hs. rewrite is_distance_valid_spec, Hs. reflexivity.
Qed.

Lemma valid_after_threshold_samples_witness :
  (0 <= good_count sensor_created < HCSR04_VALID_SAMPLES) /\
  hcsr04_is_distance_valid
    (run_cycles [1%float; 1.02%float; 0.98%float; 1.01%float] sensor_created)
    world_ready = Ok true world_ready /\
  hcsr04_is_distance_valid
    (loop_update
       (run_cycles [1%float; 1.02%float; 0.98%float; 1.01%float]
                   sensor_created) (-1)%float)
    world_ready = Ok false world_ready.
Proof.
  assert (H0 : 0 <= good_count sensor_created < HCSR04_VALID_SAMPLES)
    by (unfold HCSR04_VALID_SAMPLES; cbn; lia).
  assert (H1 : Z.of_nat (List.length [1%float; 1.02%float; 0.98%float; 1.01%float])
               = HCSR04_VALID_SAMPLES) by reflexivity.
  assert (H2 : Forall (fun d => accepted d = true)
                      [1%float; 1.02%float; 0.98%float; 1.01%float])
    by (repeat constructor).
  pose proof (valid_after_threshold_samples sensor_created _ H0 H1 H2)
    as (Ha & Hb & _).
  split; [exact H0 |].
  split; [apply Ha | apply Hb; reflexivity].
Defined.

(** ** One trip through the loop *)

Lemma loop_body_after_read (K : Kernel) (self : HCSR04) (w w1 : World)
    (d : float) :
  hcsr04_read_one K self w = Ok d w1 ->
  hcsr04_loop_body K self w =
  Ok (loop_update self d)
     (log_call (EvUsleep (to_useconds (cycle_usec (loop_update self d)))) w1).
Proof.
  intros H. unfold hcsr04_loop_body, bind. rewrite H. reflexivity.
Qed.

Lemma cycle_usec_loop_update (self : HCSR04) (d : float) :
  cycle_usec (loop_update self d) = cycle_usec self.
Proof.
  unfold loop_update.
  repeat match goal with |- context [if ?b then _ else _] => destruct b end;
    reflexivity.
Qed.

(** C5.  On a trip of the loop in which [hcsr04_read_one] returns a value
    the loop does not accept (the time-out value -1 is one), [avg] keeps its
    value: [good_count], lowered by one but not below 0, is the only field
    that changes. *)
Theorem rejected_reading_keeps_avg (K : Kernel) (self : HCSR04)
    (w w1 : World) (d : float) :
  hcsr04_read_one K self w = Ok d w1 ->
  accepted d = false ->
  INT_MIN < good_count self <= INT_MAX ->
  accepted (-1)%float = false /\
  exists self' w',
    hcsr04_loop_body K self w = Ok self' w' /\
    avg self' = avg self /\
    good_count self' = Z.max 0 (good_count self - 1) /\
    self' = set_good_count self (good_count self').
Proof.
  intros Hread Hd Hgc. split; [reflexivity |].
  exists (loop_update self d).
  exists (log_call (EvUsleep (to_useconds (cycle_usec (loop_update self d)))) w1).
  split; [apply loop_body_after_read, Hread |].
  rewrite loop_update_rejected by assumption.
  repeat split.
Qed.

Lemma rejected_reading_keeps_avg_witness :
  hcsr04_read_one kernel_slow sensor_tracking world_ready
  = Ok (-1)%float world_after_timeout /\
  exists self' w',
    hcsr04_loop_body kernel_slow sensor_tracking world_ready = Ok self' w' /\
    avg self' = 1%float /\
    good_count self' = 3.
Proof.
  assert (Hread : hcsr04_read_one kernel_slow sensor_tracking world_ready
                  = Ok (-1)%float world_after_timeout)
    by (vm_compute; reflexivity).
  assert (Hd : accepted (-1)%float = false) by reflexivity.
  assert (Hgc : INT_MIN < good_count sensor_tracking <= INT_MAX)
    by (vm_compute; split; [reflexivity | discriminate]).
  destruct (rejected_reading_keeps_avg kernel_slow sensor_tracking
              world_ready world_after_timeout (-1)%float Hread Hd Hgc)
    as (_ & self' & w' & Hbody & Havg & Hcount & _).
  split; [exact Hread |].
  exists self', w'. repeat split; assumption.
Defined.

(** C3, at a reading of exactly 0.  [hcsr04_read_one] returns 0, which is
    not negative, when the two time stamps are equal; the loop's test
    [d > 0] then takes the other branch: [avg] keeps its value and
    [good_count] goes down.  Here a struct holding a valid estimate
    ([good_count] = 4) comes out with [good_count] = 3. *)
Theorem zero_reading_is_rejected :
  (forall self : HCSR04,
      accepted 0%float = false /\
      avg (loop_update self 0%float) = avg self /\
      good_count (loop_update self 0%float)
      = Z.max 0 (to_int (good_count self - 1))) /\
  hcsr04_read_one kernel_frozen sensor_tracking world_ready
  = Ok 0%float world_after_zero /\
  hcsr04_loop_body kernel_frozen sensor_tracking world_ready
  = Ok (set_good_count sensor_tracking 3)
       (log_call (EvUsleep 240000) world_after_zero).
Proof.
  split.
  - intros self. split; [reflexivity |].
    unfold loop_update.
    change (0 <? 0)%float with false. cbn -[to_int Z.sub].
    destruct (to_int (good_count self - 1) <? 0) eqn:E; cbn -[to_int Z.sub];
      split; try reflexivity; lia.
  - assert (Hread : hcsr04_read_one kernel_frozen sensor_tracking world_ready
                    = Ok 0%float world_after_zero)
      by (vm_compute; reflexivity).
    split; [exact Hread |].
    rewrite (loop_body_after_read _ _ _ _ _ Hread).
    vm_compute. reflexivity.
Qed.

(** What C3 says of a reading, for the readings the loop accepts. *)
Lemma accepted_reading_updates_avg (K : Kernel) (self : HCSR04)
    (w w1 : World) (d : float) :
  hcsr04_read_one K self w = Ok d w1 ->
  accepted d = true ->
  INT_MIN <= good_count self < INT_MAX ->
  exists self' w',
    hcsr04_loop_body K self w = Ok self' w' /\
    avg self' = (d * (1 - smoothing self) + avg self * smoothing self)%float /\
    good_count self' = Z.min (good_count self + 1) HCSR04_VALID_SAMPLES.
Proof.
  intros Hread Hd Hgc.
  exists (loop_update self d).
  exists (log_call (EvUsleep (to_useconds (cycle_usec (loop_update self d)))) w1).
  split; [apply loop_body_after_read, Hread |].
  rewrite loop_update_accepted by assumption.
  split; reflexivity.
Qed.

(** ** The value of one measurement *)

(** While [end - start] fits an [int], the cast changes nothing and the
    result is decided by the comparison with [max_time]. *)
Lemma read_one_result_int (max_time elapsed : Z) :
  is_int elapsed ->
  (max_time < elapsed -> read_one_result max_time elapsed = (-1)%float) /\
  (elapsed <= max_time ->
   read_one_result max_time elapsed
   = (USEC_TO_METRES * double_of_long elapsed)%float).
Proof.
  intros H. unfold read_one_result. cbv zeta. rewrite (to_int_id _ H).
  split; intros Hc.
  - replace (elapsed >? max_time) with true by (symmetry; lia). reflexivity.
  - replace (elapsed >? max_time) with false by (symmetry; lia). reflexivity.
Qed.

(** Whatever [hcsr04_read_one] returns is [read_one_result] of a [long]. *)
Lemma hcsr04_read_one_value (K : Kernel) (self : HCSR04) (w w' : World)
    (d : float) :
  hcsr04_read_one K self w = Ok d w' ->
  exists start end_ : Z,
    d = read_one_result (max_time self) (to_long (end_ - start)).
Proof.
  unfold hcsr04_read_one. intros H. step_binds H.
  unfold ret in H. inversion H; subst. eauto.
Qed.

Lemma distances_in_range_spec (n : nat) :
  forall from : Z,
    distances_in_range n from = true ->
    forall e : Z,
      from <= e < from + Z.of_nat n ->
      (0 <=? read_one_result 23323 e)%float = true /\
      (read_one_result 23323 e <=? HCSR04_MAX_RANGE)%float = true.
Proof.
  induction n as [| n IH]; intros from Hall e He.
  - cbn in He. lia.
  - cbn [distances_in_range] in Hall. cbv zeta in Hall.
    apply andb_true_iff in Hall. destruct Hall as (Hn & Hrest).
    destruct (Z.eq_dec e from) as [-> | Hne].
    + apply andb_true_iff, Hn.
    + apply (IH (from + 1)); [exact Hrest | lia].
Qed.

(** Within the limit the value returned is a distance between 0 and
    HCSR04_MAX_RANGE. *)
Lemma read_one_result_in_range (elapsed : Z) :
  0 <= elapsed <= 23323 ->
  (0 <=? read_one_result 23323 elapsed)%float = true /\
  (read_one_result 23323 elapsed <=? HCSR04_MAX_RANGE)%float = true.
Proof.
  intros H.
  assert (Hall : distances_in_range (Z.to_nat 23324) 0 = true)
    by (vm_compute; reflexivity).
  apply (distances_in_range_spec _ _ Hall).
  rewrite Z2Nat.id; lia.
Qed.

(** C1, at an elapsed time of 2^31 us.  The wall clock is set forward
    between the two time stamps; [end - start] is 2147483648, far above
    [max_time] = 23323, but the [int] it is cast to is negative, so the
    comparison fails and the product with the uncast [long] is returned:
    368293.4 m rather than -1. *)
Theorem read_one_truncates_elapsed :
  max_time sensor_ready = 23323 /\
  to_int 2147483648 = -2147483648 /\
  hcsr04_read_one kernel_clock_step sensor_ready world_ready
  = Ok (USEC_TO_METRES * 2147483648)%float world_after_clock_step /\
  (USEC_TO_METRES * 2147483648)%float = 368293.44563199999%float /\
  (HCSR04_MAX_RANGE <? USEC_TO_METRES * 2147483648)%float = true /\
  accepted (USEC_TO_METRES * 2147483648)%float = true.
Proof.
  split; [reflexivity |].
  split; [reflexivity |].
  split; [vm_compute; reflexivity |].
  split; [reflexivity |].
  split; reflexivity.
Qed.

(** ** Reading the estimate *)

(** C6.  [hcsr04_get_distance] returns [avg] when
    [hcsr04_is_distance_valid] holds and -1, a negative number, when it does
    not.  It makes no call to the kernel: the world it returns is the world
    it was given.  It is handed the struct read-only, so a call of it ahead
    of any computation [k] on the struct changes nothing of what [k] does. *)
Theorem get_distance_reads_state (self : HCSR04) (w : World) :
  (exists valid : bool,
      hcsr04_is_distance_valid self w = Ok valid w /\
      hcsr04_get_distance self w
      = Ok (if valid then avg self else (-1)%float) w) /\
  ((-1) <? 0)%float = true /\
  (forall (A : Type) (k : HCSR04 -> M A),
      (hcsr04_get_distance self ;; k self)%m w = k self w).
Proof.
  assert (Hrun : hcsr04_get_distance self w
                 = Ok (if good_count self >=? HCSR04_VALID_SAMPLES
                       then avg self else (-1)%float) w).
  { unfold hcsr04_get_distance, hcsr04_is_distance_valid, bind, ret.
    destruct (good_count self >=? HCSR04_VALID_SAMPLES); reflexivity. }
  split; [| split].
  - exists (good_count self >=? HCSR04_VALID_SAMPLES).
    split; [reflexivity | exact Hrun].
  - reflexivity.
  - intros A k. unfold bind at 1. rewrite Hrun. reflexivity.
Qed.

(** ** Creation *)

(** C10.  [hcsr04_create] returns for every input without a call to the
    kernel, and stores what it is given: the smoothing factor as it is,
    whatever its value, and the cycle period as the [int] product
    [cycle_msec * 1000], whatever [cycle_msec] is; nothing is compared with
    HCSR04_MIN_CYCLE or with the range 0 .. 1. *)
Theorem create_stores_config (sound echo cycle_msec : Z) (smooth : float)
    (w : World) :
  exists self : HCSR04,
    hcsr04_create sound echo cycle_msec smooth w = Ok self w /\
    smoothing self = smooth /\
    cycle_usec self = to_int (cycle_msec * 1000) /\
    (is_int (cycle_msec * 1000) -> cycle_usec self = cycle_msec * 1000) /\
    sound_pin self = sound /\
    echo_pin self = echo /\
    gpiopin_sound self = mkGPIOPin sound (-1) /\
    gpiopin_echo self = mkGPIOPin echo (-1) /\
    max_time self = 23323 /\
    stop self = false /\
    avg self = 0%float /\
    good_count self = 0.
Proof.
  eexists. split; [reflexivity |].
  cbn -[to_int Z.mul]. repeat split; try reflexivity.
  intros H. apply to_int_id, H.
Qed.

(** The call [main] makes, and a call with a period below HCSR04_MIN_CYCLE
    and a smoothing factor above 1. *)
Lemma create_examples :
  hcsr04_create 17 27 (4 * HCSR04_MIN_CYCLE) 0.5%float world0
  = Ok sensor_created world0 /\
  (exists self,
      hcsr04_create 17 27 10 1.5%float world0 = Ok self world0 /\
      cycle_usec self = 10000 /\ smoothing self = 1.5%float) /\
  (exists self,
      hcsr04_create 17 27 (-5) (-2)%float world0 = Ok self world0 /\
      cycle_usec self = -5000 /\ smoothing self = (-2)%float).
Proof.
  split; [vm_compute; reflexivity |].
  split; eexists; (split; [vm_compute; reflexivity |]);
    split; vm_compute; reflexivity.
Qed.

(** ** Acquiring and releasing a line *)

Lemma lowest_free_ge (fuel : nat) (fds : list Z) :
  forall n : Z, n <= lowest_free fuel n fds.
Proof.
  induction fuel as [| fuel IH]; intros n; cbn [lowest_free]; [lia |].
  destruct (existsb (Z.eqb n) fds); [| lia].
  specialize (IH (n + 1)). lia.
Qed.

Lemma next_fd_nonneg (fds : list Z) : 0 <= next_fd fds.
Proof. unfold next_fd. apply lowest_free_ge. Qed.

Lemma write_to_file_run (K : Kernel) (filename text : string) (error : bool) (w : World) :
  exists (ok : bool) (e : option string) (errno : string),
    gpiopin_write_to_file K filename text error w
    = Ok (ok, e)
         (mkWorld (S (w_tick w)) (w_fds w) errno
            (EvWriteFile filename text (k_write_file K (w_tick w) filename text)
               :: w_log w)) /\
    match k_write_file K (w_tick w) filename text with
    | CantOpen m =>
        ok = false /\ errno = m /\
        e = (if error then Some (cant_open filename m) else None)
    | Flushed => ok = true /\ e = None /\ errno = w_errno w
    | Lost m => ok = true /\ e = None /\ errno = m
    end.
Proof.
  unfold gpiopin_write_to_file, bind, sys_fopen_write_close, strerror_errno, ret.
  destruct (k_write_file K (w_tick w) filename text) as [m | | m];
    destruct error; cbn; do 3 eexists; split; try reflexivity; auto.
Qed.

Lemma gpiopin_init_unfold (K : Kernel) (self : GPIOPin)
    (dir : GPIOPinDirection) (error : bool) :
  gpiopin_init K self dir error =
  (let s := snprintf50 (dec (pin self)) in
   ' (ret0, err) <- gpiopin_write_to_file K export_file s error ;;
   if ret0 then
     gpiopin_write_to_file K (gpio_file (pin self) "/direction")
       (direction_text dir) false ;;
     fd <- sys_open K (gpio_file (pin self) "/value") (value_flags dir) ;;
     if 0 <=? fd then ret (true, set_value_fd self fd, err)
     else if error then
       e <- strerror_errno ;;
       ret (false, set_value_fd self fd,
            Some (cant_open (gpio_file (pin self) "/value") e))
     else ret (false, set_value_fd self fd, err)
   else ret (false, self, err))%m.
Proof. destruct dir; reflexivity. Qed.

Lemma gpiopin_init_run (K : Kernel) (self : GPIOPin) (dir : GPIOPinDirection)
    (error : bool) (w : World) :
  exists (ok : bool) (self' : GPIOPin) (e : option string) (w' : World),
    gpiopin_init K self dir error w = Ok (ok, self', e) w' /\
    pin self' = pin self /\
    match k_write_file K (w_tick w) export_file (snprintf50 (dec (pin self))) with
    | CantOpen m =>
        ok = false /\ self' = self /\
        e = (if error then Some (cant_open export_file m) else None) /\
        w_fds w' = w_fds w /\ w_tick w' = S (w_tick w)
    | _ =>
        w_tick w' = S (S (S (w_tick w))) /\
        match k_open K (S (S (w_tick w))) (gpio_file (pin self) "/value")
                (value_flags dir) with
        | Some m =>
            ok = false /\ value_fd self' = -1 /\
            e = (if error
                 then Some (cant_open (gpio_file (pin self) "/value") m)
                 else None) /\
            w_fds w' = w_fds w
        | None =>
            ok = true /\ e = None /\
            value_fd self' = next_fd (w_fds w) /\
            w_fds w' = value_fd self' :: w_fds w
        end
    end.
Proof.
  rewrite gpiopin_init_unfold. cbv zeta. unfold bind at 1.
  destruct (write_to_file_run K export_file (snprintf50 (dec (pin self)))
              error w) as (ok & e & errno & Hrun & Hcase).
  rewrite Hrun. clear Hrun.
  set (w1 := mkWorld _ _ _ _).
  assert (Hrest :
    ok = true -> e = None ->
    exists (self' : GPIOPin) (e' : option string) (w' : World),
      (gpiopin_write_to_file K (gpio_file (pin self) "/direction")
         (direction_text dir) false ;;
       fd <- sys_open K (gpio_file (pin self) "/value") (value_flags dir) ;;
       if 0 <=? fd then ret (true, set_value_fd self fd, e)
       else if error then
         e <- strerror_errno ;;
         ret (false, set_value_fd self fd,
              Some (cant_open (gpio_file (pin self) "/value") e))
       else ret (false, set_value_fd self fd, e))%m w1
      = Ok (match k_open K (S (S (w_tick w))) (gpio_file (pin self) "/value")
                    (value_flags dir) with
            | Some _ => false
            | None => true
            end, self', e') w' /\
      pin self' = pin self /\
      w_tick w' = S (S (S (w_tick w))) /\
      match k_open K (S (S (w_tick w))) (gpio_file (pin self) "/value")
              (value_flags dir) with
      | Some m =>
          value_fd self' = -1 /\
          e' = (if error
                then Some (cant_open (gpio_file (pin self) "/value") m)
                else None) /\
          w_fds w' = w_fds w
      | None =>
          e' = None /\
          value_fd self' = next_fd (w_fds w) /\
          w_fds w' = value_fd self' :: w_fds w
      end).
  { intros _ ->. unfold bind at 1.
    destruct (write_to_file_run K (gpio_file (pin self) "/direction")
                (direction_text dir) false w1)
      as (ok2 & e2 & errno2 & Hrun2 & _).
    rewrite Hrun2. clear Hrun2. unfold bind, sys_open. cbn [w_tick w_fds w1].
    destruct (k_open K (S (S (w_tick w))) (gpio_file (pin self) "/value")
                (value_flags dir)) as [m |].
    - change (0 <=? -1) with false. cbv iota.
      destruct error; do 3 eexists; (split; [reflexivity |]);
        repeat split.
    - pose proof (next_fd_nonneg (w_fds w)) as Hfd.
      replace (0 <=? next_fd (w_fds w)) with true by (symmetry; lia).
      do 3 eexists. split; [reflexivity |]. repeat split. }
  destruct (k_write_file K (w_tick w) export_file (snprintf50 (dec (pin self))))
    as [m | | m]; destruct Hcase as (-> & He & Herr); subst.
  - exists false, self. do 2 eexists. split; [reflexivity |].
    repeat split.
  - destruct (Hrest eq_refl eq_refl) as (self' & e' & w' & Hrun & Hpin & Ht & Hc).
    cbv iota beta. rewrite Hrun.
    do 4 eexists. split; [reflexivity |]. split; [exact Hpin |].
    split; [exact Ht |].
    destruct (k_open K (S (S (w_tick w))) (gpio_file (pin self) "/value")
                (value_flags dir)); intuition.
  - destruct (Hrest eq_refl eq_refl) as (self' & e' & w' & Hrun & Hpin & Ht & Hc).
    cbv iota beta. rewrite Hrun.
    do 4 eexists. split; [reflexivity |]. split; [exact Hpin |].
    split; [exact Ht |].
    destruct (k_open K (S (S (w_tick w))) (gpio_file (pin self) "/value")
                (value_flags dir)); intuition.
Qed.

Lemma gpiopin_uninit_run (K : Kernel) (self : GPIOPin) (w : World) :
  exists (w' : World) (res : WriteOutcome),
    gpiopin_uninit K self w = Ok (set_value_fd self (-1)) w' /\
    w_fds w' = (if 0 <=? value_fd self
                then remove_fd (value_fd self) (w_fds w)
                else w_fds w) /\
    w_log w' = EvWriteFile unexport_file (snprintf50 (dec (pin self))) res
               :: (if 0 <=? value_fd self
                   then EvClose (value_fd self) :: w_log w
                   else w_log w).
Proof.
  unfold gpiopin_uninit. unfold bind at 1.
  destruct (0 <=? value_fd self); unfold sys_close, ret; cbv zeta;
    unfold bind;
    match goal with
    | |- context [gpiopin_write_to_file K ?f ?t false ?w1] =>
        destruct (write_to_file_run K f t false w1)
          as (ok & e & errno & Hrun & _)
    end; rewrite Hrun; do 2 eexists; split; try reflexivity;
    split; reflexivity.
Qed.

(** C7, as the code has it.  For a line with no open handle,
    [gpiopin_init] fails with the message naming the export file exactly
    when that file cannot be opened for writing (a write that fails once
    the file is open goes unnoticed); it fails with the message naming the
    value file exactly when the export file opened and the value file
    cannot be opened; otherwise it succeeds.  After either failure the line
    holds no descriptor, the descriptor table is as before the call, and
    [gpiopin_uninit] returns, closing nothing and making the unexport write
    only. *)
Theorem gpiopin_init_failure_modes (K : Kernel) (self : GPIOPin)
    (dir : GPIOPinDirection) (error : bool) (w : World) :
  value_fd self < 0 ->
  let exported :=
    k_write_file K (w_tick w) export_file (snprintf50 (dec (pin self))) in
  let vfile := gpio_file (pin self) "/value" in
  let opened := k_open K (S (S (w_tick w))) vfile (value_flags dir) in
  exists (ok : bool) (self' : GPIOPin) (e : option string) (w' : World),
    gpiopin_init K self dir error w = Ok (ok, self', e) w' /\
    match exported with
    | CantOpen m =>
        ok = false /\
        e = (if error then Some (cant_open export_file m) else None)
    | Flushed | Lost _ =>
        match opened with
        | Some m =>
            ok = false /\
            e = (if error then Some (cant_open vfile m) else None)
        | None => ok = true /\ e = None
        end
    end /\
    (ok = false ->
     value_fd self' < 0 /\
     w_fds w' = w_fds w /\
     exists (self'' : GPIOPin) (w'' : World) (res : WriteOutcome),
       gpiopin_uninit K self' w' = Ok self'' w'' /\
       value_fd self'' = -1 /\
       w_fds w'' = w_fds w /\
       w_log w'' = EvWriteFile unexport_file (snprintf50 (dec (pin self))) res
                   :: w_log w').
Proof.
  intros Hfd exported vfile opened.
  destruct (gpiopin_init_run K self dir error w)
    as (ok & self' & e & w' & Hrun & Hpin & Hcase).
  fold exported in Hcase. fold vfile in Hcase. fold opened in Hcase.
  exists ok, self', e, w'. split; [exact Hrun |].
  assert (Hclosed : ok = false -> value_fd self' < 0 /\ w_fds w' = w_fds w).
  { intros ->.
    destruct exported as [m | | m].
    - destruct Hcase as (_ & -> & _ & Hf & _). auto.
    - destruct Hcase as (_ & Hop). destruct opened as [m |].
      + destruct Hop as (_ & Hv & _ & Hf). split; [lia | exact Hf].
      + destruct Hop as (Hno & _). discriminate Hno.
    - destruct Hcase as (_ & Hop). destruct opened as [m' |].
      + destruct Hop as (_ & Hv & _ & Hf). split; [lia | exact Hf].
      + destruct Hop as (Hno & _). discriminate Hno. }
  split.
  - destruct exported as [m | | m].
    + destruct Hcase as (Hok & _ & He & _). auto.
    + destruct Hcase as (_ & Hop). destruct opened; intuition.
    + destruct Hcase as (_ & Hop). destruct opened; intuition.
  - intros Hno. destruct (Hclosed Hno) as (Hv & Hf).
    split; [exact Hv |]. split; [exact Hf |].
    destruct (gpiopin_uninit_run K self' w') as (w'' & res & Hun & Hf2 & Hl).
    exists (set_value_fd self' (-1)), w'', res.
    split; [exact Hun |]. split; [reflexivity |].
    replace (0 <=? value_fd self') with false in Hf2, Hl by (symmetry; lia).
    rewrite Hpin in Hl. split; [congruence | exact Hl].
Qed.

Lemma gpiopin_init_failure_modes_witness :
  value_fd (mkGPIOPin 27 (-1)) < 0 /\
  exists (self' : GPIOPin) (e : option string) (w' : World),
    gpiopin_init kernel_denied (mkGPIOPin 27 (-1)) GPIOPIN_IN true world0
    = Ok (false, self', e) w' /\
    value_fd self' < 0 /\
    w_fds w' = w_fds world0.
Proof.
  assert (H : value_fd (mkGPIOPin 27 (-1)) < 0) by (cbn; lia).
  split; [exact H |].
  destruct (gpiopin_init_failure_modes kernel_denied (mkGPIOPin 27 (-1))
              GPIOPIN_IN true world0 H)
    as (ok & self' & e & w' & Hrun & Hcase & Hclosed).
  vm_compute in Hcase. destruct Hcase as (Hok & _). subst ok.
  destruct (Hclosed eq_refl) as (Hv & Hf & _).
  exists self', e, w'. split; [exact Hrun |]. split; assumption.
Defined.

(** C7 as stated fails: the write to the export file fails (the line is
    exported already, EBUSY), and [gpiopin_init] reports success. *)
Lemma init_succeeds_when_export_write_fails :
  k_write_file kernel_busy (w_tick world0) export_file
    (snprintf50 (dec (pin (mkGPIOPin 27 (-1)))))
  = Lost "Device or resource busy" /\
  exists w' : World,
    gpiopin_init kernel_busy (mkGPIOPin 27 (-1)) GPIOPIN_IN true world0
    = Ok (true, mkGPIOPin 27 3, None) w'.
Proof.
  split; [vm_compute; reflexivity |].
  eexists. vm_compute. reflexivity.
Qed.

(** ** Starting the sensor *)

Lemma hcsr04_init_run (K : Kernel) (self : HCSR04) (error : bool)
    (w : World) :
  let self0 := set_good_count (set_avg self 0%float) 0 in
  exists (ok_echo : bool) (echo : GPIOPin) (e : option string) (w1 : World),
    gpiopin_init K (gpiopin_echo self) GPIOPIN_IN error w
    = Ok (ok_echo, echo, e) w1 /\
    if ok_echo then
      exists (ok_sound : bool) (sound : GPIOPin) (e_sound : option string)
             (w2 : World),
        gpiopin_init K (gpiopin_sound self) GPIOPIN_OUT false w1
        = Ok (ok_sound, sound, e_sound) w2 /\
        let tid := Z.of_nat (S (S (w_tick w2))) in
        if 0 <=? value_fd sound then
          hcsr04_init K self error w
          = Ok (true,
                set_pthread
                  (set_gpiopin_sound (set_gpiopin_echo self0 echo) sound) tid,
                e)
               (log_call (EvPthreadDetach tid)
                  (log_call (EvPthreadCreate tid)
                     (log_call (EvWrite (value_fd sound) "0") w2)))
        else
          hcsr04_init K self error w = Abort "self->value_fd >= 0" w2
    else
      hcsr04_init K self error w
      = Ok (false, set_gpiopin_echo self0 echo, e) w1.
Proof.
  intros self0. unfold hcsr04_init. cbv zeta. fold self0.
  change (gpiopin_echo self0) with (gpiopin_echo self).
  destruct (gpiopin_init_run K (gpiopin_echo self) GPIOPIN_IN error w)
    as (ok_echo & echo & e & w1 & Hecho & _).
  exists ok_echo, echo, e, w1. split; [exact Hecho |].
  destruct ok_echo.
  - destruct (gpiopin_init_run K (gpiopin_sound self) GPIOPIN_OUT false w1)
      as (ok_sound & sound & e_sound & w2 & Hsound & _).
    exists ok_sound, sound, e_sound, w2. split; [exact Hsound |].
    cbv zeta.
    destruct (0 <=? value_fd sound) eqn:Hfd;
      unfold bind at 1; rewrite Hecho; cbv beta iota;
      change (gpiopin_sound (set_gpiopin_echo self0 echo))
        with (gpiopin_sound self);
      unfold bind at 1; rewrite Hsound; cbv beta iota;
      change (gpiopin_sound
                (set_gpiopin_sound (set_gpiopin_echo self0 echo) sound))
        with sound;
      unfold gpiopin_set, c_assert, bind; rewrite Hfd; reflexivity.
  - unfold bind at 1. rewrite Hecho. reflexivity.
Qed.

Lemma gpiopin_init_fresh (K : Kernel) (self self' : GPIOPin)
    (dir : GPIOPinDirection) (error ok : bool) (e : option string)
    (w w' : World) :
  gpiopin_init K self dir error w = Ok (ok, self', e) w' ->
  (error = false -> e = None) /\
  (value_fd self < 0 -> (ok = true <-> 0 <= value_fd self')).
Proof.
  intros Hrun.
  destruct (gpiopin_init_run K self dir error w)
    as (ok0 & self0 & e0 & w0 & Hrun0 & _ & Hcase).
  rewrite Hrun in Hrun0. inversion Hrun0; subst ok0 self0 e0 w0. clear Hrun0.
  pose proof (next_fd_nonneg (w_fds w)) as Hnext.
  destruct (k_write_file K (w_tick w) export_file (snprintf50 (dec (pin self))))
    as [m | | m].
  - destruct Hcase as (-> & -> & -> & _). split.
    + intros ->. reflexivity.
    + intros Hfd. split; [discriminate | lia].
  - destruct Hcase as (_ & Hop).
    destruct (k_open K (S (S (w_tick w))) (gpio_file (pin self) "/value")
                (value_flags dir)) as [m |].
    + destruct Hop as (-> & Hv & -> & _). split.
      * intros ->. reflexivity.
      * intros _. split; [discriminate | lia].
    + destruct Hop as (-> & -> & Hv & _). split; [reflexivity |].
      intros _. split; [lia | reflexivity].
  - destruct Hcase as (_ & Hop).
    destruct (k_open K (S (S (w_tick w))) (gpio_file (pin self) "/value")
                (value_flags dir)) as [m' |].
    + destruct Hop as (-> & Hv & -> & _). split.
      * intros ->. reflexivity.
      * intros _. split; [discriminate | lia].
    + destruct Hop as (-> & -> & Hv & _). split; [reflexivity |].
      intros _. split; [lia | reflexivity].
Qed.

(** The order of [hcsr04_init], under any kernel.  It initializes the echo
    line as input first.  If that fails it returns FALSE with the echo line's
    message, with no further call made: the sound line is not touched and
    no thread is created.  If it succeeds, the sound line is initialized as
    output in the world the echo line left, with no message asked for and
    the result not looked at.  When the sound line then holds a
    descriptor, '0' is written to it, the thread is created and detached,
    and TRUE is returned.  When it holds none, which for a sound line with
    no handle before the call is exactly when its initialization failed,
    the assertion in [gpiopin_set] stops the program before any thread is
    created. *)
Lemma hcsr04_init_sequence (K : Kernel) (self : HCSR04) (error : bool)
    (w : World) :
  exists (ok_echo : bool) (echo : GPIOPin) (e : option string) (w1 : World),
    gpiopin_init K (gpiopin_echo self) GPIOPIN_IN error w
    = Ok (ok_echo, echo, e) w1 /\
    (ok_echo = false ->
     exists self' : HCSR04,
       hcsr04_init K self error w = Ok (false, self', e) w1 /\
       gpiopin_echo self' = echo /\
       gpiopin_sound self' = gpiopin_sound self /\
       pthread self' = pthread self) /\
    (ok_echo = true ->
     exists (ok_sound : bool) (sound : GPIOPin) (e_sound : option string)
            (w2 : World),
       gpiopin_init K (gpiopin_sound self) GPIOPIN_OUT false w1
       = Ok (ok_sound, sound, e_sound) w2 /\
       e_sound = None /\
       (value_fd (gpiopin_sound self) < 0 ->
        (ok_sound = true <-> 0 <= value_fd sound)) /\
       (0 <= value_fd sound ->
        exists (self' : HCSR04) (tid : Z),
          hcsr04_init K self error w
          = Ok (true, self', e)
               (log_call (EvPthreadDetach tid)
                  (log_call (EvPthreadCreate tid)
                     (log_call (EvWrite (value_fd sound) "0") w2))) /\
          gpiopin_echo self' = echo /\
          gpiopin_sound self' = sound /\
          pthread self' = tid) /\
       (value_fd sound < 0 ->
        hcsr04_init K self error w = Abort "self->value_fd >= 0" w2)).
Proof.
  destruct (hcsr04_init_run K self error w)
    as (ok_echo & echo & e & w1 & Hecho & Hrest).
  exists ok_echo, echo, e, w1. split; [exact Hecho |].
  split.
  - intros ->. eexists. split; [exact Hrest |]. repeat split.
  - intros ->.
    destruct Hrest as (ok_sound & sound & e_sound & w2 & Hsound & Hrest).
    exists ok_sound, sound, e_sound, w2. split; [exact Hsound |].
    destruct (gpiopin_init_fresh _ _ _ _ _ _ _ _ _ Hsound) as (He & Hfresh).
    split; [exact (He eq_refl) |]. split; [exact Hfresh |].
    cbv zeta in Hrest. split.
    + intros Hfd.
      replace (0 <=? value_fd sound) with true in Hrest by (symmetry; lia).
      do 2 eexists. split; [exact Hrest |]. repeat split.
    + intros Hfd.
      replace (0 <=? value_fd sound) with false in Hrest by (symmetry; lia).
      exact Hrest.
Qed.

(** C8, at a sound line that does not initialize.  The echo line
    initializes; the sound line does not (its value file cannot be opened),
    and [hcsr04_init], which passes no place for a message and does not look
    at the result, goes on to [gpiopin_set], whose assertion
    [self->value_fd >= 0] fails.  [hcsr04_init] does not return, neither
    success nor failure with a message, and no thread was created. *)
Theorem init_aborts_when_sound_line_fails :
  (exists (echo : GPIOPin) (w1 : World),
      gpiopin_init kernel_no_sound (gpiopin_echo sensor_created) GPIOPIN_IN
        true world0 = Ok (true, echo, None) w1 /\
      exists (sound : GPIOPin) (w2 : World),
        gpiopin_init kernel_no_sound (gpiopin_sound sensor_created)
          GPIOPIN_OUT false w1 = Ok (false, sound, None) w2) /\
  hcsr04_init kernel_no_sound sensor_created true world0
  = Abort "self->value_fd >= 0" world_sound_failed /\
  (forall r w', hcsr04_init kernel_no_sound sensor_created true world0
                <> Ok r w') /\
  (forall tid, ~ In (EvPthreadCreate tid) (w_log world_sound_failed)).
Proof.
  assert (Habort : hcsr04_init kernel_no_sound sensor_created true world0
                   = Abort "self->value_fd >= 0" world_sound_failed)
    by (vm_compute; reflexivity).
  split; [| split; [exact Habort | split]].
  - do 2 eexists. split; [vm_compute; reflexivity |].
    do 2 eexists. vm_compute. reflexivity.
  - intros r w' H. rewrite Habort in H. discriminate H.
  - intros tid Hin. vm_compute in Hin.
    repeat (destruct Hin as [Hin | Hin]; [discriminate Hin |]).
    exact Hin.
Qed.

(** ** After initialization *)

Lemma good_count_run_le (ds : list float) :
  forall self,
    count_ok self ->
    good_count (run_cycles ds self)
    <= good_count self + Z.of_nat (List.length (filter accepted ds)).
Proof.
  unfold run_cycles.
  induction ds as [| d ds IH]; intros self H.
  - cbn. lia.
  - cbn [fold_left filter].
    specialize (IH (loop_update self d) (count_ok_step self d H)).
    rewrite good_count_step in IH by assumption.
    unfold count_ok, HCSR04_VALID_SAMPLES in H.
    unfold HCSR04_VALID_SAMPLES in IH.
    destruct (accepted d); cbn [List.length]; lia.
Qed.

Lemma get_distance_invalid (self : HCSR04) (w : World) :
  good_count self < HCSR04_VALID_SAMPLES ->
  hcsr04_is_distance_valid self w = Ok false w /\
  hcsr04_get_distance self w = Ok (-1)%float w.
Proof.
  intros H.
  assert (Hv : hcsr04_is_distance_valid self w = Ok false w).
  { rewrite is_distance_valid_spec. f_equal. apply Z.leb_gt, H. }
  split; [exact Hv |].
  unfold hcsr04_get_distance, bind. rewrite Hv. reflexivity.
Qed.

(** C9.  A call of [hcsr04_init] that returns has set [avg] to 0 and
    [good_count] to 0.  From there, as long as the loop has accepted fewer
    than HCSR04_VALID_SAMPLES readings, whatever else it has read,
    [hcsr04_is_distance_valid] is false and [hcsr04_get_distance] returns
    -1. *)
Theorem init_resets_estimate (K : Kernel) (self self' : HCSR04)
    (error ok : bool) (e : option string) (w w' : World) :
  hcsr04_init K self error w = Ok (ok, self', e) w' ->
  avg self' = 0%float /\
  good_count self' = 0 /\
  forall (ds : list float) (w'' : World),
    Z.of_nat (List.length (filter accepted ds)) < HCSR04_VALID_SAMPLES ->
    hcsr04_is_distance_valid (run_cycles ds self') w'' = Ok false w'' /\
    hcsr04_get_distance (run_cycles ds self') w'' = Ok (-1)%float w''.
Proof.
  intros Hinit.
  assert (Hreset : avg self' = 0%float /\ good_count self' = 0).
  { destruct (hcsr04_init_run K self error w)
      as (ok_echo & echo & e0 & w1 & _ & Hrest).
    destruct ok_echo.
    - destruct Hrest as (ok_sound & sound & e_sound & w2 & _ & Hrest).
      cbv zeta in Hrest.
      destruct (0 <=? value_fd sound); rewrite Hinit in Hrest;
        [| discriminate Hrest].
      inversion Hrest; subst. split; reflexivity.
    - rewrite Hinit in Hrest. inversion Hrest; subst. split; reflexivity. }
  destruct Hreset as (Havg & Hcount).
  split; [exact Havg |]. split; [exact Hcount |].
  intros ds w'' Hfew.
  apply get_distance_invalid.
  assert (Hok : count_ok self')
    by (unfold count_ok, HCSR04_VALID_SAMPLES; lia).
  pose proof (good_count_run_le ds self' Hok) as Hle. lia.
Qed.

Lemma init_resets_estimate_witness :
  hcsr04_init kernel_ok sensor_created true world0
  = Ok (true, sensor_ready, None) world_ready /\
  avg sensor_ready = 0%float /\
  good_count sensor_ready = 0 /\
  hcsr04_get_distance
    (run_cycles [1%float; 1.02%float; (-1)%float; 0.98%float] sensor_ready)
    world_ready = Ok (-1)%float world_ready.
Proof.
  assert (Hinit : hcsr04_init kernel_ok sensor_created true world0
                  = Ok (true, sensor_ready, None) world_ready)
    by (vm_compute; reflexivity).
  destruct (init_resets_estimate kernel_ok sensor_created sensor_ready
              true true None world0 world_ready Hinit)
    as (Havg & Hcount & Hloop).
  split; [exact Hinit |]. split; [exact Havg |]. split; [exact Hcount |].
  apply (Hloop [1%float; 1.02%float; (-1)%float; 0.98%float] world_ready).
  vm_compute. reflexivity.
Defined.

(** ** The loop and the measurement as they run *)

(** What [hcsr04_loop] makes of the struct is [run_cycles] of the values it
    read, so the facts about [run_cycles] are facts about the loop. *)
Lemma hcsr04_loop_runs (K : Kernel) (n : nat) :
  forall (self self' : HCSR04) (w w' : World),
    hcsr04_loop K n self w = Ok self' w' ->
    exists ds : list float,
      (List.length ds <= n)%nat /\ self' = run_cycles ds self.
Proof.
  induction n as [| n IH]; intros self self' w w' H.
  - cbn in H. inversion H; subst. exists []. split; [apply Nat.le_refl | reflexivity].
  - cbn [hcsr04_loop] in H. destruct (stop self).
    + inversion H; subst. exists []. split; [apply Nat.le_0_l | reflexivity].
    + unfold bind in H.
      destruct (hcsr04_loop_body K self w) as [s1 w1 | msg w1] eqn:Hbody;
        [| discriminate H].
      unfold hcsr04_loop_body, bind in Hbody.
      destruct (hcsr04_read_one K self w) as [d wr | msg wr] eqn:Hread;
        [| discriminate Hbody].
      cbn in Hbody. inversion Hbody; subst s1 w1. clear Hbody.
      destruct (IH _ _ _ _ H) as (ds & Hlen & Hrun).
      exists (d :: ds). split; [cbn; apply le_n_S, Hlen | exact Hrun].
Qed.

Lemma hcsr04_loop_count_ok (K : Kernel) (n : nat) (self self' : HCSR04)
    (w w' : World) :
  count_ok self ->
  hcsr04_loop K n self w = Ok self' w' ->
  count_ok self'.
Proof.
  intros Hok H. destruct (hcsr04_loop_runs K n _ _ _ _ H) as (ds & _ & ->).
  apply count_ok_run, Hok.
Qed.

Lemma gpiopin_set_run (self : GPIOPin) (val : bool) (w : World) :
  0 <= value_fd self ->
  gpiopin_set self val w
  = Ok tt (log_call (EvWrite (value_fd self) (if val then "1" else "0")%char) w).
Proof.
  intros H. unfold gpiopin_set, c_assert, bind, emit.
  replace (0 <=? value_fd self) with true by (symmetry; lia). reflexivity.
Qed.

Lemma gpiopin_set_trigger_run (K : Kernel) (self : GPIOPin)
    (trigger : GPIOPinTrigger) (w : World) :
  k_open K (w_tick w) (gpio_file (pin self) "/edge") O_WRONLY = None ->
  exists w', gpiopin_set_trigger K self trigger w = Ok tt w' /\
             w_tick w' = S (S (S (w_tick w))).
Proof.
  intros Hopen. unfold gpiopin_set_trigger. cbv zeta.
  unfold bind at 1. unfold sys_open. rewrite Hopen.
  unfold bind at 1. unfold c_assert.
  pose proof (next_fd_nonneg (w_fds w)) as Hfd.
  replace (0 <=? next_fd (w_fds w)) with true by (symmetry; lia).
  unfold bind at 1.
  set (w1 := mkWorld _ _ _ _).
  destruct trigger;
    match goal with
    | |- context [gpiopin_write_to_file K ?f ?t false w1] =>
        destruct (write_to_file_run K f t false w1)
          as (ok & e & errno & Hrun & _)
    end; rewrite Hrun; unfold sys_close; eexists; split; reflexivity.
Qed.

Lemma gpiopin_wait_for_trigger_run (self : GPIOPin) (usec : Z) (w : World) :
  0 <= value_fd self ->
  exists w', gpiopin_wait_for_trigger self usec w = Ok tt w' /\
             w_tick w' = S (S (S (w_tick w))).
Proof.
  intros H. unfold gpiopin_wait_for_trigger, c_assert, bind, emit.
  replace (0 <=? value_fd self) with true by (symmetry; lia).
  eexists. split; reflexivity.
Qed.

(** With both lines holding a descriptor and the edge file of the echo line
    opening whenever asked, [hcsr04_read_one] returns a value. *)
Lemma hcsr04_read_one_returns (K : Kernel) (self : HCSR04) (w : World) :
  0 <= value_fd (gpiopin_sound self) ->
  0 <= value_fd (gpiopin_echo self) ->
  (forall t, k_open K t (gpio_file (pin (gpiopin_echo self)) "/edge")
               O_WRONLY = None) ->
  exists (d : float) (w' : World), hcsr04_read_one K self w = Ok d w'.
Proof.
  intros Hs He Hedge. unfold hcsr04_read_one.
  unfold bind at 1. rewrite gpiopin_set_run by assumption. cbv beta iota.
  unfold bind at 1. unfold usleep at 1, emit at 1. cbv beta iota.
  unfold bind at 1. rewrite gpiopin_set_run by assumption. cbv beta iota.
  unfold bind at 1.
  match goal with |- context [gpiopin_set_trigger K _ _ ?w0] =>
    destruct (gpiopin_set_trigger_run K (gpiopin_echo self) GPIOPIN_RISING w0
                (Hedge _)) as (w1 & H1 & _) end.
  rewrite H1. cbv beta iota.
  destruct (gpiopin_wait_for_trigger_run (gpiopin_echo self) 500000 w1 He)
    as (w2 & H2 & _).
  unfold bind at 1. rewrite H2. cbv beta iota.
  unfold bind at 1. unfold get_system_time_usec at 1, bind at 1.
  unfold sys_gettimeofday at 1, ret at 1. cbv beta iota.
  unfold bind at 1.
  match goal with |- context [gpiopin_set_trigger K _ _ ?w0] =>
    destruct (gpiopin_set_trigger_run K (gpiopin_echo self) GPIOPIN_FALLING w0
                (Hedge _)) as (w3 & H3 & _) end.
  rewrite H3. cbv beta iota.
  destruct (gpiopin_wait_for_trigger_run (gpiopin_echo self) 500000 w3 He)
    as (w4 & H4 & _).
  unfold bind at 1. rewrite H4. cbv beta iota.
  unfold bind, get_system_time_usec, sys_gettimeofday, ret.
  do 2 eexists. reflexivity.
Qed.

(** ** Descriptors *)

Lemma remove_next_fd (fds : list Z) :
  remove_fd (next_fd fds) (next_fd fds :: fds) = fds.
Proof. cbn [remove_fd]. rewrite Z.eqb_refl. reflexivity. Qed.

Lemma gpiopin_set_trigger_unfold (K : Kernel) (self : GPIOPin)
    (trigger : GPIOPinTrigger) :
  gpiopin_set_trigger K self trigger =
  (f <- sys_open K (gpio_file (pin self) "/edge") O_WRONLY ;;
   c_assert (0 <=? f) "f >= 0" ;;
   gpiopin_write_to_file K (gpio_file (pin self) "/edge")
     (trigger_text trigger) false ;;
   sys_close f)%m.
Proof. destruct trigger; reflexivity. Qed.

Lemma gpiopin_set_trigger_cases (K : Kernel) (self : GPIOPin)
    (trigger : GPIOPinTrigger) (w : World) :
  let edge := gpio_file (pin self) "/edge" in
  match k_open K (w_tick w) edge O_WRONLY with
  | Some e =>
      gpiopin_set_trigger K self trigger w
      = Abort "f >= 0"
          (mkWorld (S (w_tick w)) (w_fds w) e
                   (EvOpen edge O_WRONLY (-1) :: w_log w))
  | None =>
      exists (w' : World) (res : WriteOutcome),
        gpiopin_set_trigger K self trigger w = Ok tt w' /\
        w_fds w' = w_fds w /\
        w_tick w' = S (S (S (w_tick w))) /\
        w_log w' = EvClose (next_fd (w_fds w))
                   :: EvWriteFile edge (trigger_text trigger) res
                   :: EvOpen edge O_WRONLY (next_fd (w_fds w))
                   :: w_log w
  end.
Proof.
  intros edge. rewrite gpiopin_set_trigger_unfold. fold edge.
  destruct (k_open K (w_tick w) edge O_WRONLY) as [e |] eqn:Hopen.
  - unfold bind at 1. unfold sys_open. rewrite Hopen. reflexivity.
  - unfold bind at 1. unfold sys_open. rewrite Hopen. cbv beta iota.
    unfold bind at 1. unfold c_assert.
    pose proof (next_fd_nonneg (w_fds w)) as Hfd.
    replace (0 <=? next_fd (w_fds w)) with true by (symmetry; lia).
    cbv beta iota. unfold bind at 1.
    set (w1 := mkWorld _ _ _ _).
    destruct (write_to_file_run K edge (trigger_text trigger) false w1)
      as (ok & e & errno & Hrun & _).
    rewrite Hrun. cbv beta iota.
    unfold sys_close. do 2 eexists. split; [reflexivity |].
    cbn [w_fds w_tick w_log w1]. rewrite remove_next_fd.
    repeat split.
Qed.

(** ** One measurement *)

Lemma gpiopin_wait_for_trigger_cases (self : GPIOPin) (usec : Z) (w : World) :
  gpiopin_wait_for_trigger self usec w =
  if 0 <=? value_fd self
  then Ok tt (log_call (EvRead (value_fd self) 50)
                (log_call (EvPoll (value_fd self) (Z.quot usec 1000))
                   (log_call (EvLseek (value_fd self)) w)))
  else Abort "self->value_fd >= 0" w.
Proof.
  unfold gpiopin_wait_for_trigger, c_assert, bind, emit.
  destruct (0 <=? value_fd self); reflexivity.
Qed.

Lemma get_system_time_usec_run (K : Kernel) (w : World) :
  get_system_time_usec K w =
  Ok (stamp (k_gettimeofday K (w_tick w)))
     (log_call (EvGettimeofday (fst (k_gettimeofday K (w_tick w)))
                               (snd (k_gettimeofday K (w_tick w)))) w).
Proof. reflexivity. Qed.

Lemma hcsr04_read_one_run (K : Kernel) (self : HCSR04) (w : World) :
  let sound := value_fd (gpiopin_sound self) in
  let echo := value_fd (gpiopin_echo self) in
  let edge := gpio_file (pin (gpiopin_echo self)) "/edge" in
  let f := next_fd (w_fds w) in
  let tv1 := k_gettimeofday K (9 + w_tick w) in
  let tv2 := k_gettimeofday K (16 + w_tick w) in
  0 <= sound ->
  0 <= echo ->
  k_open K (3 + w_tick w) edge O_WRONLY = None ->
  k_open K (10 + w_tick w) edge O_WRONLY = None ->
  exists (w' : World) (r1 r2 : WriteOutcome),
    hcsr04_read_one K self w
    = Ok (read_one_result (max_time self) (to_long (stamp tv2 - stamp tv1)))
         w' /\
    w_fds w' = w_fds w /\
    w_tick w' = (17 + w_tick w)%nat /\
    w_log w' =
    [EvGettimeofday (fst tv2) (snd tv2);
     EvRead echo 50; EvPoll echo 500; EvLseek echo;
     EvClose f; EvWriteFile edge "falling" r2; EvOpen edge O_WRONLY f;
     EvGettimeofday (fst tv1) (snd tv1);
     EvRead echo 50; EvPoll echo 500; EvLseek echo;
     EvClose f; EvWriteFile edge "rising" r1; EvOpen edge O_WRONLY f;
     EvWrite sound "0"; EvUsleep 100; EvWrite sound "1"] ++ w_log w.
Proof.
  intros sound echo edge f tv1 tv2 Hs He Ho1 Ho2.
  cbn [Nat.add] in *.
  assert (Hse : (0 <=? echo) = true) by (apply Z.leb_le; exact He).
  unfold hcsr04_read_one.
  unfold bind at 1. rewrite gpiopin_set_run by assumption. cbv beta iota.
  unfold bind at 1. unfold usleep at 1, emit at 1. cbv beta iota.
  unfold bind at 1. rewrite gpiopin_set_run by assumption. cbv beta iota.
  fold sound.
  set (w0 := log_call _ (log_call _ (log_call _ w))).
  pose proof (gpiopin_set_trigger_cases K (gpiopin_echo self) GPIOPIN_RISING
                w0) as H1.
  cbv zeta in H1. fold edge in H1.
  change (w_tick w0) with (S (S (S (w_tick w)))) in H1.
  rewrite Ho1 in H1. destruct H1 as (w1 & r1 & H1 & Hf1 & Ht1 & Hl1).
  unfold bind at 1. rewrite H1. cbv beta iota.
  unfold bind at 1. rewrite gpiopin_wait_for_trigger_cases. fold echo.
  rewrite Hse. cbv beta iota.
  set (w2 := log_call _ (log_call _ (log_call _ w1))).
  unfold bind at 1. rewrite get_system_time_usec_run. cbv beta iota.
  assert (Ht2 : w_tick w2 = S (S (S (S (S (S (S (S (S (w_tick w)))))))))).
  { unfold w2. cbn [log_call w_tick]. rewrite Ht1. reflexivity. }
  rewrite Ht2. fold tv1.
  set (w3 := log_call _ w2).
  pose proof (gpiopin_set_trigger_cases K (gpiopin_echo self) GPIOPIN_FALLING
                w3) as H3.
  cbv zeta in H3. fold edge in H3.
  assert (Ht3 : w_tick w3 = S (S (S (S (S (S (S (S (S (S (w_tick w))))))))))).
  { unfold w3. cbn [log_call w_tick]. rewrite Ht2. reflexivity. }
  rewrite Ht3 in H3. rewrite Ho2 in H3. destruct H3 as (w4 & r2 & H3 & Hf4 & Ht4 & Hl4).
  unfold bind at 1. rewrite H3. cbv beta iota.
  unfold bind at 1. rewrite gpiopin_wait_for_trigger_cases. fold echo.
  rewrite Hse. cbv beta iota.
  set (w5 := log_call _ (log_call _ (log_call _ w4))).
  unfold bind at 1. rewrite get_system_time_usec_run. cbv beta iota.
  assert (Ht5 : w_tick w5
                = S (S (S (S (S (S (S (S (S (S (S (S (S (S (S (S (w_tick w))))))))))))))))).
  { unfold w5. cbn [log_call w_tick]. rewrite Ht4. reflexivity. }
  rewrite Ht5. fold tv2. unfold ret.
  assert (Hfw3 : w_fds w3 = w_fds w).
  { unfold w3, w2. cbn [log_call w_fds]. exact Hf1. }
  eexists. exists r1, r2. split; [reflexivity |].
  split; [| split].
  - cbn [log_call w_fds]. unfold w5. cbn [log_call w_fds].
    rewrite Hf4. exact Hfw3.
  - cbn [log_call w_tick]. rewrite Ht5. reflexivity.
  - cbn [log_call w_log]. unfold w5. cbn [log_call w_log].
    rewrite Hl4, Hfw3. unfold w3, w2. cbn [log_call w_log].
    rewrite Hl1. unfold w0. cbn [log_call w_log w_fds].
    change (Z.quot 500000 1000) with 500.
    reflexivity.
Qed.

(** ** The loop as it runs *)

Lemma loop_update_frame (self : HCSR04) (d : float) :
  loop_update self d =
  set_good_count (set_avg self (avg (loop_update self d)))
                 (good_count (loop_update self d)).
Proof.
  unfold loop_update.
  repeat match goal with
         | |- context [if ?b then _ else _] => destruct b
         end; destruct self; reflexivity.
Qed.

Lemma run_cycles_frame (ds : list float) :
  forall self : HCSR04,
    run_cycles ds self =
    set_good_count (set_avg self (avg (run_cycles ds self)))
                   (good_count (run_cycles ds self)).
Proof.
  unfold run_cycles.
  induction ds as [| d ds IH]; intros self.
  - destruct self; reflexivity.
  - cbn [fold_left]. rewrite IH at 1. rewrite (loop_update_frame self d) at 1.
    reflexivity.
Qed.

Lemma hcsr04_loop_stopped (K : Kernel) (n : nat) (self : HCSR04) (w : World) :
  stop self = true -> hcsr04_loop K n self w = Ok self w.
Proof.
  intros H. destruct n; cbn [hcsr04_loop]; [| rewrite H]; reflexivity.
Qed.

Lemma hcsr04_read_one_no_descriptor (K : Kernel) (self : HCSR04) (w : World) :
  value_fd (gpiopin_sound self) < 0 ->
  hcsr04_read_one K self w = Abort "self->value_fd >= 0" w.
Proof.
  intros H. unfold hcsr04_read_one. unfold bind at 1.
  unfold gpiopin_set at 1, bind at 1, c_assert.
  replace (0 <=? value_fd (gpiopin_sound self)) with false by (symmetry; lia).
  reflexivity.
Qed.

Lemma hcsr04_loop_progress (K : Kernel) (n : nat) :
  forall (self : HCSR04) (w : World),
    stop self = false ->
    0 <= value_fd (gpiopin_sound self) ->
    0 <= value_fd (gpiopin_echo self) ->
    (forall t, k_open K t (gpio_file (pin (gpiopin_echo self)) "/edge")
                 O_WRONLY = None) ->
    exists (ds : list float) (w' : World),
      hcsr04_loop K n self w = Ok (run_cycles ds self) w' /\
      List.length ds = n /\
      w_fds w' = w_fds w /\
      w_tick w' = (18 * n + w_tick w)%nat.
Proof.
  induction n as [| n IH]; intros self w Hstop Hs He Hedge.
  - exists [], w. repeat split.
  - cbn [hcsr04_loop]. rewrite Hstop.
    destruct (hcsr04_read_one_run K self w Hs He (Hedge _) (Hedge _))
      as (w1 & r1 & r2 & Hread & Hf1 & Ht1 & _).
    unfold bind at 1. rewrite (loop_body_after_read _ _ _ _ _ Hread).
    set (d := read_one_result _ _) in *.
    set (w2 := log_call _ w1).
    destruct (IH (loop_update self d) w2) as (ds & w' & Hloop & Hlen & Hf & Ht).
    + rewrite (loop_update_frame self d). exact Hstop.
    + rewrite (loop_update_frame self d). exact Hs.
    + rewrite (loop_update_frame self d). exact He.
    + rewrite (loop_update_frame self d). exact Hedge.
    + exists (d :: ds), w'. split; [exact Hloop |].
      split; [cbn [List.length]; rewrite Hlen; reflexivity |].
      split.
      * rewrite Hf. unfold w2. cbn [log_call w_fds]. exact Hf1.
      * rewrite Ht. unfold w2. cbn [log_call w_tick]. rewrite Ht1. lia.
Qed.

(** ** Starting, stopping and starting again *)

Lemma gpiopin_init_success (K : Kernel) (self self' : GPIOPin)
    (dir : GPIOPinDirection) (error : bool) (e : option string)
    (w w' : World) :
  gpiopin_init K self dir error w = Ok (true, self', e) w' ->
  pin self' = pin self /\
  value_fd self' = next_fd (w_fds w) /\
  w_fds w' = next_fd (w_fds w) :: w_fds w /\
  e = None.
Proof.
  intros Hrun.
  destruct (gpiopin_init_run K self dir error w)
    as (ok0 & self0 & e0 & w0 & Hrun0 & Hpin & Hcase).
  rewrite Hrun in Hrun0. inversion Hrun0; subst ok0 self0 e0 w0. clear Hrun0.
  split; [exact Hpin |].
  destruct (k_write_file K (w_tick w) export_file (snprintf50 (dec (pin self))))
    as [m | | m].
  - destruct Hcase as (Hno & _). discriminate Hno.
  - destruct Hcase as (_ & Hop).
    destruct (k_open K (S (S (w_tick w))) (gpio_file (pin self) "/value")
                (value_flags dir)) as [m |].
    + destruct Hop as (Hno & _). discriminate Hno.
    + destruct Hop as (_ & -> & Hv & Hf). rewrite Hv in Hf. auto.
  - destruct Hcase as (_ & Hop).
    destruct (k_open K (S (S (w_tick w))) (gpio_file (pin self) "/value")
                (value_flags dir)) as [m' |].
    + destruct Hop as (Hno & _). discriminate Hno.
    + destruct Hop as (_ & -> & Hv & Hf). rewrite Hv in Hf. auto.
Qed.

Lemma hcsr04_init_success (K : Kernel) (self self1 : HCSR04) (error : bool)
    (e : option string) (w w1 : World) :
  value_fd (gpiopin_sound self) < 0 ->
  hcsr04_init K self error w = Ok (true, self1, e) w1 ->
  let echo_fd := next_fd (w_fds w) in
  let sound_fd := next_fd (echo_fd :: w_fds w) in
  value_fd (gpiopin_echo self1) = echo_fd /\
  value_fd (gpiopin_sound self1) = sound_fd /\
  pin (gpiopin_echo self1) = pin (gpiopin_echo self) /\
  pin (gpiopin_sound self1) = pin (gpiopin_sound self) /\
  w_fds w1 = sound_fd :: echo_fd :: w_fds w /\
  stop self1 = stop self /\
  e = None.
Proof.
  intros Hfresh Hinit echo_fd sound_fd.
  destruct (hcsr04_init_run K self error w)
    as (ok_echo & echo & e0 & w0 & Hecho & Hrest).
  destruct ok_echo.
  - destruct Hrest as (ok_sound & sound & e_sound & w2 & Hsound & Hrest).
    cbv zeta in Hrest.
    destruct (0 <=? value_fd sound) eqn:Hfd; rewrite Hinit in Hrest;
      [| discriminate Hrest].
    inversion Hrest; subst self1 e0 w1. clear Hrest.
    destruct (gpiopin_init_success _ _ _ _ _ _ _ _ Hecho)
      as (Hpe & Hve & Hfe & Hee).
    destruct (gpiopin_init_fresh _ _ _ _ _ _ _ _ _ Hsound) as (_ & Hiff).
    assert (Hok : ok_sound = true) by (apply (Hiff Hfresh); lia).
    subst ok_sound.
    destruct (gpiopin_init_success _ _ _ _ _ _ _ _ Hsound)
      as (Hps & Hvs & Hfs & _).
    cbn [gpiopin_echo gpiopin_sound set_pthread set_gpiopin_sound
         set_gpiopin_echo set_good_count set_avg stop log_call w_fds].
    rewrite Hfe in Hvs, Hfs. fold echo_fd in Hve, Hvs, Hfs.
    fold sound_fd in Hvs, Hfs. rewrite <- Hve in Hfs at 1.
    repeat split; try assumption.
    rewrite Hfs, Hve. reflexivity.
  - rewrite Hinit in Hrest. inversion Hrest.
Qed.

Lemma hcsr04_init_keeps_stop (K : Kernel) (self self1 : HCSR04)
    (error ok : bool) (e : option string) (w w1 : World) :
  hcsr04_init K self error w = Ok (ok, self1, e) w1 ->
  stop self1 = stop self.
Proof.
  intros Hinit.
  destruct (hcsr04_init_run K self error w)
    as (ok_echo & echo & e0 & w0 & _ & Hrest).
  destruct ok_echo.
  - destruct Hrest as (ok_sound & sound & e_sound & w2 & _ & Hrest).
    cbv zeta in Hrest.
    destruct (0 <=? value_fd sound); rewrite Hinit in Hrest;
      [| discriminate Hrest].
    inversion Hrest; subst. reflexivity.
  - rewrite Hinit in Hrest. inversion Hrest; subst. reflexivity.
Qed.

Lemma hcsr04_uninit_run (K : Kernel) (self : HCSR04) (w : World) :
  let sound := gpiopin_sound self in
  let echo := gpiopin_echo self in
  let fds1 := if 0 <=? value_fd sound
              then remove_fd (value_fd sound) (w_fds w) else w_fds w in
  exists (w' : World) (r1 r2 : WriteOutcome),
    hcsr04_uninit K self w
    = Ok (set_gpiopin_echo
            (set_gpiopin_sound (set_stop self true) (set_value_fd sound (-1)))
            (set_value_fd echo (-1))) w' /\
    w_fds w' = (if 0 <=? value_fd echo
                then remove_fd (value_fd echo) fds1 else fds1) /\
    w_log w' =
    EvWriteFile unexport_file (snprintf50 (dec (pin echo))) r2
    :: (if 0 <=? value_fd echo then [EvClose (value_fd echo)] else [])
    ++ EvWriteFile unexport_file (snprintf50 (dec (pin sound))) r1
    :: (if 0 <=? value_fd sound then [EvClose (value_fd sound)] else [])
    ++ w_log w.
Proof.
  intros sound echo fds1. unfold hcsr04_uninit. cbv zeta.
  change (gpiopin_sound (set_stop self true)) with sound.
  destruct (gpiopin_uninit_run K sound w) as (w1 & r1 & H1 & Hf1 & Hl1).
  unfold bind at 1. rewrite H1. cbv beta iota.
  change (gpiopin_echo
            (set_gpiopin_sound (set_stop self true) (set_value_fd sound (-1))))
    with echo.
  destruct (gpiopin_uninit_run K echo w1) as (w2 & r2 & H2 & Hf2 & Hl2).
  unfold bind at 1. rewrite H2. cbv beta iota. unfold ret.
  exists w2, r1, r2. split; [reflexivity |].
  rewrite Hf1 in Hf2. rewrite Hl1 in Hl2. fold fds1 in Hf2.
  split; [exact Hf2 |].
  rewrite Hl2.
  destruct (0 <=? value_fd echo), (0 <=? value_fd sound); reflexivity.
Qed.

(** ** Signs of readings *)

Lemma binary_round_aux_sign (sx : bool) (mx ex : Z) (lx : location) :
  has_sign sx (binary_round_aux prec emax sx mx ex lx).
Proof.
  unfold binary_round_aux.
  destruct (shr_fexp prec emax mx ex lx) as [mrs' e'].
  destruct (shr_fexp prec emax _ e' loc_Exact) as [mrs'' e''].
  destruct (shr_m mrs'') as [| p | p]; [reflexivity | | exact I].
  destruct (e'' <=? emax - prec); reflexivity.
Qed.

Lemma binary_normalize_sign (m e : Z) :
  0 <= m -> has_sign false (binary_normalize prec emax m e false).
Proof.
  intros H. destruct m as [| p | p]; cbn [binary_normalize].
  - reflexivity.
  - unfold binary_round.
    destruct (shl_align _ _ _) as [mz ez]. apply binary_round_aux_sign.
  - lia.
Qed.

Lemma SFopp_sign (b : bool) (s : spec_float) :
  has_sign b s -> has_sign (negb b) (SFopp s).
Proof. destruct s; cbn; intros; subst; auto. Qed.

Lemma SFmul_sign (m : positive) (e : Z) (y : spec_float) :
  has_sign true y ->
  has_sign true (SF64mul (S754_finite false m e) y).
Proof.
  destruct y as [s | s | | s my ey]; cbn; intros H; subst; auto.
  apply binary_round_aux_sign.
Qed.

Lemma SFltb_zero_sign (s : spec_float) :
  has_sign true s -> SFltb (S754_zero false) s = false.
Proof. destruct s; cbn; intros H; subst; reflexivity. Qed.

Lemma double_of_long_sign (z : Z) :
  z < 0 -> has_sign true (Prim2SF (double_of_long z)).
Proof.
  intros H. unfold double_of_long.
  destruct (z =? - 2 ^ 63); [vm_compute; reflexivity |].
  replace (z <? 0) with true by (symmetry; lia).
  rewrite FloatAxioms.opp_spec, FloatAxioms.of_uint63_spec.
  apply (SFopp_sign false), binary_normalize_sign.
  apply Uint63.to_Z_bounded.
Qed.

Lemma negative_elapsed_rejected (max_time elapsed : Z) :
  elapsed < 0 -> accepted (read_one_result max_time elapsed) = false.
Proof.
  intros H. unfold read_one_result. cbv zeta.
  destruct (to_int elapsed >? max_time); [reflexivity |].
  unfold accepted. rewrite FloatAxioms.ltb_spec, FloatAxioms.mul_spec.
  change (Prim2SF 0) with (S754_zero false).
  change (Prim2SF USEC_TO_METRES)
    with (S754_finite false 6327233217282376 (-65)).
  apply SFltb_zero_sign, SFmul_sign, double_of_long_sign, H.
Qed.

(** ** Time stamps and the window of accepted readings *)

Lemma to_long_id (z : Z) : - 2 ^ 63 <= z < 2 ^ 63 -> to_long z = z.
Proof.
  unfold to_long, wrap, LONG_BITS.
  change (2 ^ (64 - 1)) with 9223372036854775808.
  change (2 ^ 63) with 9223372036854775808.
  change (2 ^ 64) with 18446744073709551616.
  intros H. rewrite Z.mod_small by lia. lia.
Qed.

Lemma stamp_exact (tv : Z * Z) :
  valid_timeval tv -> stamp tv = fst tv * 1000000 + snd tv.
Proof.
  unfold valid_timeval, stamp. intros (Hs & Hu).
  change (2 ^ 63) with 9223372036854775808 in *.
  rewrite (to_long_id (fst tv * 1000000))
    by (change (2 ^ 63) with 9223372036854775808; lia).
  rewrite to_long_id by (change (2 ^ 63) with 9223372036854775808; lia).
  lia.
Qed.

Lemma readings_accepted_spec (n : nat) :
  forall from : Z,
    readings_accepted n from = true ->
    forall e : Z,
      from <= e < from + Z.of_nat n ->
      accepted (read_one_result 23323 e) = true.
Proof.
  induction n as [| n IH]; intros from Hall e He.
  - cbn in He. lia.
  - cbn [readings_accepted] in Hall.
    apply andb_true_iff in Hall. destruct Hall as (Hn & Hrest).
    destruct (Z.eq_dec e from) as [-> | Hne].
    + exact Hn.
    + apply (IH (from + 1)); [exact Hrest | lia].
Qed.

Lemma readings_within_limit_accepted (elapsed : Z) :
  1 <= elapsed <= 23323 -> accepted (read_one_result 23323 elapsed) = true.
Proof.
  intros H.
  assert (Hall : readings_accepted (Z.to_nat 23323) 1 = true)
    by (vm_compute; reflexivity).
  apply (readings_accepted_spec _ _ Hall).
  rewrite Z2Nat.id; lia.
Qed.

(** X1.  With both lines open and the edge file opening when asked,
    [hcsr04_read_one] returns what the two readings of the clock make of
    it: with [elapsed] the microseconds between them, -1 when [elapsed]
    is above [max_time] and USEC_TO_METRES * elapsed otherwise, as long as
    [elapsed] fits an [int]; and it leaves the descriptor table as it
    found it. *)
Theorem read_one_measures_elapsed (K : Kernel) (self : HCSR04) (w : World) :
  let sound := value_fd (gpiopin_sound self) in
  let echo := value_fd (gpiopin_echo self) in
  let edge := gpio_file (pin (gpiopin_echo self)) "/edge" in
  let tv1 := k_gettimeofday K (9 + w_tick w) in
  let tv2 := k_gettimeofday K (16 + w_tick w) in
  let elapsed := (fst tv2 - fst tv1) * 1000000 + (snd tv2 - snd tv1) in
  0 <= sound ->
  0 <= echo ->
  k_open K (3 + w_tick w) edge O_WRONLY = None ->
  k_open K (10 + w_tick w) edge O_WRONLY = None ->
  valid_timeval tv1 ->
  valid_timeval tv2 ->
  is_int elapsed ->
  exists w' : World,
    hcsr04_read_one K self w
    = Ok (if elapsed >? max_time self then (-1)%float
          else (USEC_TO_METRES * double_of_long elapsed)%float) w' /\
    w_fds w' = w_fds w.
Proof.
  intros sound echo edge tv1 tv2 elapsed Hs He Ho1 Ho2 Hv1 Hv2 Hint.
  destruct (hcsr04_read_one_run K self w Hs He Ho1 Ho2)
    as (w' & r1 & r2 & Hread & Hf & _).
  exists w'. split; [| exact Hf].
  rewrite Hread. fold tv1 tv2.
  rewrite (stamp_exact tv1 Hv1), (stamp_exact tv2 Hv2).
  replace (fst tv2 * 1000000 + snd tv2 - (fst tv1 * 1000000 + snd tv1))
    with elapsed by (unfold elapsed; lia).
  assert (Hlong : to_long elapsed = elapsed).
  { apply to_long_id. unfold is_int, INT_MIN, INT_MAX in Hint.
    change (2 ^ 31) with 2147483648 in Hint.
    change (2 ^ 63) with 9223372036854775808. lia. }
  rewrite Hlong. unfold read_one_result. cbv zeta.
  rewrite (to_int_id _ Hint). reflexivity.
Qed.

Lemma read_one_measures_elapsed_witness :
  exists w' : World,
    hcsr04_read_one kernel_ok sensor_ready world_ready
    = Ok (USEC_TO_METRES * 700)%float w' /\
    w_fds w' = w_fds world_ready.
Proof.
  refine (read_one_measures_elapsed kernel_ok sensor_ready world_ready
            _ _ _ _ _ _ _).
  - cbn. lia.
  - cbn. lia.
  - reflexivity.
  - reflexivity.
  - unfold valid_timeval. cbn. lia.
  - unfold valid_timeval. cbn. lia.
  - unfold is_int, INT_MIN, INT_MAX. cbn. lia.
Defined.

(** X2.  The limit [hcsr04_create] stores is 23323 us.  With it, and for an
    elapsed time that fits an [int], the value [hcsr04_read_one] returns
    passes the loop's test exactly when the elapsed time is between 1 and
    23323 us; such a value is a distance of at most HCSR04_MAX_RANGE. *)
Theorem reading_accepted_iff_within_limit (elapsed : Z) :
  is_int elapsed ->
  int_of_double (HCSR04_MAX_RANGE / USEC_TO_METRES)%float = 23323 /\
  (accepted (read_one_result 23323 elapsed) = true <->
   1 <= elapsed <= 23323) /\
  (1 <= elapsed <= 23323 ->
   (read_one_result 23323 elapsed <=? HCSR04_MAX_RANGE)%float = true).
Proof.
  intros Hint. split; [vm_compute; reflexivity |]. split.
  - split.
    + intros Hacc.
      destruct (Z_lt_le_dec elapsed 0) as [Hneg | Hnn].
      * rewrite (negative_elapsed_rejected _ _ Hneg) in Hacc.
        discriminate Hacc.
      * destruct (Z.eq_dec elapsed 0) as [-> | Hnz].
        { vm_compute in Hacc. discriminate Hacc. }
        destruct (Z_le_gt_dec elapsed 23323) as [Hle | Hgt]; [lia |].
        destruct (read_one_result_int 23323 elapsed Hint) as (Hout & _).
        rewrite Hout in Hacc by lia. vm_compute in Hacc. discriminate Hacc.
    + apply readings_within_limit_accepted.
  - intros H. apply read_one_result_in_range. lia.
Qed.

Lemma reading_accepted_iff_within_limit_witness :
  accepted (read_one_result 23323 700) = true <-> 1 <= 700 <= 23323.
Proof.
  assert (H : is_int 700)
    by (unfold is_int, INT_MIN, INT_MAX; cbn; lia).
  exact (proj1 (proj2 (reading_accepted_iff_within_limit 700 H))).
Defined.

(** X3.  When the clock is set back between the two time stamps, so that
    [end - start] is negative, the value returned is never one the loop
    accepts, whatever [max_time] is: the estimate is not touched and the
    count goes down. *)
Theorem backward_clock_reading_rejected (self : HCSR04)
    (max_time elapsed : Z) :
  elapsed < 0 ->
  INT_MIN < good_count self <= INT_MAX ->
  accepted (read_one_result max_time elapsed) = false /\
  loop_update self (read_one_result max_time elapsed)
  = set_good_count self (Z.max 0 (good_count self - 1)).
Proof.
  intros Hneg Hgc.
  pose proof (negative_elapsed_rejected max_time elapsed Hneg) as Hrej.
  split; [exact Hrej |]. apply loop_update_rejected; assumption.
Qed.

Lemma backward_clock_reading_rejected_witness :
  accepted (read_one_result 23323 (-5)) = false /\
  loop_update sensor_tracking (read_one_result 23323 (-5))
  = set_good_count sensor_tracking (Z.max 0 (good_count sensor_tracking - 1)).
Proof.
  apply (backward_clock_reading_rejected sensor_tracking 23323 (-5)).
  - lia.
  - vm_compute. split; [reflexivity | discriminate].
Defined.

(** X4.  [gpiopin_set_trigger] returns exactly when the edge file opens;
    when it does not, the assertion stops the program with nothing
    written.  When it returns, it has written the trigger's name with a
    result nobody looked at, has closed the descriptor it opened, and
    the descriptor table is as before. *)
Theorem set_trigger_closes_what_it_opens (K : Kernel) (self : GPIOPin)
    (trigger : GPIOPinTrigger) (w : World) :
  let edge := gpio_file (pin self) "/edge" in
  ((exists w', gpiopin_set_trigger K self trigger w = Ok tt w') <->
   k_open K (w_tick w) edge O_WRONLY = None) /\
  (forall w',
      gpiopin_set_trigger K self trigger w = Ok tt w' ->
      w_fds w' = w_fds w /\
      exists res : WriteOutcome,
        w_log w' = EvClose (next_fd (w_fds w))
                   :: EvWriteFile edge (trigger_text trigger) res
                   :: EvOpen edge O_WRONLY (next_fd (w_fds w))
                   :: w_log w) /\
  (forall msg w',
      gpiopin_set_trigger K self trigger w = Abort msg w' ->
      w_fds w' = w_fds w /\
      w_log w' = EvOpen edge O_WRONLY (-1) :: w_log w).
Proof.
  intros edge.
  pose proof (gpiopin_set_trigger_cases K self trigger w) as H.
  cbv zeta in H. fold edge in H.
  destruct (k_open K (w_tick w) edge O_WRONLY) as [e |].
  - split; [| split].
    + split; [| discriminate].
      intros (w' & Hok). rewrite H in Hok. discriminate Hok.
    + intros w' Hok. rewrite H in Hok. discriminate Hok.
    + intros msg w' Hab. rewrite H in Hab. inversion Hab; subst.
      split; reflexivity.
  - destruct H as (w1 & res & Hok & Hf & _ & Hl).
    split; [| split].
    + split; [reflexivity |]. intros _. exists w1. exact Hok.
    + intros w' Hok'. rewrite Hok in Hok'. inversion Hok'; subst.
      split; [exact Hf |]. exists res. exact Hl.
    + intros msg w' Hab. rewrite Hok in Hab. discriminate Hab.
Qed.

(** X5.  One measurement, call by call: '1' to the sound line, a sleep of
    100 us, '0' to the sound line; the echo line armed for the rising
    edge, a wait of at most 500 ms, the first time stamp; the echo line
    armed for the falling edge, a wait of at most 500 ms, the second time
    stamp.  Seventeen calls in all. *)
Theorem read_one_protocol (K : Kernel) (self : HCSR04) (w : World) :
  let sound := value_fd (gpiopin_sound self) in
  let echo := value_fd (gpiopin_echo self) in
  let edge := gpio_file (pin (gpiopin_echo self)) "/edge" in
  let f := next_fd (w_fds w) in
  let tv1 := k_gettimeofday K (9 + w_tick w) in
  let tv2 := k_gettimeofday K (16 + w_tick w) in
  0 <= sound ->
  0 <= echo ->
  k_open K (3 + w_tick w) edge O_WRONLY = None ->
  k_open K (10 + w_tick w) edge O_WRONLY = None ->
  exists (d : float) (w' : World) (r1 r2 : WriteOutcome),
    hcsr04_read_one K self w = Ok d w' /\
    w_tick w' = (17 + w_tick w)%nat /\
    w_log w' =
    [EvGettimeofday (fst tv2) (snd tv2);
     EvRead echo 50; EvPoll echo 500; EvLseek echo;
     EvClose f; EvWriteFile edge "falling" r2; EvOpen edge O_WRONLY f;
     EvGettimeofday (fst tv1) (snd tv1);
     EvRead echo 50; EvPoll echo 500; EvLseek echo;
     EvClose f; EvWriteFile edge "rising" r1; EvOpen edge O_WRONLY f;
     EvWrite sound "0"; EvUsleep 100; EvWrite sound "1"] ++ w_log w.
Proof.
  intros sound echo edge f tv1 tv2 Hs He Ho1 Ho2.
  destruct (hcsr04_read_one_run K self w Hs He Ho1 Ho2)
    as (w' & r1 & r2 & Hread & _ & Ht & Hl).
  eexists. exists w', r1, r2. split; [exact Hread |].
  split; [exact Ht | exact Hl].
Qed.

Lemma read_one_protocol_witness :
  exists (d : float) (w' : World),
    hcsr04_read_one kernel_ok sensor_ready world_ready = Ok d w' /\
    w_tick w' = 26%nat.
Proof.
  assert (Hs : 0 <= value_fd (gpiopin_sound sensor_ready)) by (cbn; lia).
  assert (He : 0 <= value_fd (gpiopin_echo sensor_ready)) by (cbn; lia).
  destruct (read_one_protocol kernel_ok sensor_ready world_ready Hs He
              eq_refl eq_refl)
    as (d & w' & _ & _ & Hread & Ht & _).
  exists d, w'. split; [exact Hread | exact Ht].
Defined.

(** X6.  With the stop flag clear, both lines open and the edge file
    opening whenever asked, [hcsr04_loop] makes every one of its [n]
    trips: it takes [n] readings, never stops at an assertion, makes 18
    calls per trip, leaves the descriptor table as it found it, and
    changes no field of the struct other than [avg] and [good_count]. *)
Theorem loop_runs_without_leak (K : Kernel) (n : nat) (self : HCSR04)
    (w : World) :
  stop self = false ->
  0 <= value_fd (gpiopin_sound self) ->
  0 <= value_fd (gpiopin_echo self) ->
  (forall t, k_open K t (gpio_file (pin (gpiopin_echo self)) "/edge")
               O_WRONLY = None) ->
  exists (ds : list float) (w' : World),
    hcsr04_loop K n self w = Ok (run_cycles ds self) w' /\
    List.length ds = n /\
    w_fds w' = w_fds w /\
    w_tick w' = (18 * n + w_tick w)%nat /\
    run_cycles ds self
    = set_good_count (set_avg self (avg (run_cycles ds self)))
                     (good_count (run_cycles ds self)).
Proof.
  intros Hstop Hs He Hedge.
  destruct (hcsr04_loop_progress K n self w Hstop Hs He Hedge)
    as (ds & w' & Hloop & Hlen & Hf & Ht).
  exists ds, w'. repeat (split; [assumption |]).
  apply run_cycles_frame.
Qed.

Lemma loop_runs_without_leak_witness :
  exists (ds : list float) (w' : World),
    hcsr04_loop kernel_ok 3 sensor_ready world_ready
    = Ok (run_cycles ds sensor_ready) w' /\
    List.length ds = 3%nat /\
    w_fds w' = w_fds world_ready.
Proof.
  assert (Hs : 0 <= value_fd (gpiopin_sound sensor_ready)) by (cbn; lia).
  assert (He : 0 <= value_fd (gpiopin_echo sensor_ready)) by (cbn; lia).
  destruct (loop_runs_without_leak kernel_ok 3 sensor_ready world_ready
              eq_refl Hs He (fun _ => eq_refl))
    as (ds & w' & Hloop & Hlen & Hf & _).
  exists ds, w'. repeat split; assumption.
Defined.

(** ** Readings of exactly 0 *)

Lemma read_one_frozen_clock (self : HCSR04) (w : World) :
  0 <= value_fd (gpiopin_sound self) ->
  0 <= value_fd (gpiopin_echo self) ->
  0 <= max_time self ->
  exists w' : World,
    hcsr04_read_one kernel_frozen self w = Ok 0%float w' /\
    w_fds w' = w_fds w.
Proof.
  intros Hs He Hm.
  destruct (hcsr04_read_one_run kernel_frozen self w Hs He eq_refl eq_refl)
    as (w' & r1 & r2 & Hread & Hfds & _).
  exists w'. split; [| exact Hfds].
  rewrite Hread. f_equal.
  change (to_long (stamp (k_gettimeofday kernel_frozen (16 + w_tick w))
                   - stamp (k_gettimeofday kernel_frozen (9 + w_tick w))))
    with 0.
  unfold read_one_result. cbv zeta. change (to_int 0) with 0.
  replace (0 >? max_time self) with false
    by (symmetry; rewrite Z.gtb_ltb; apply Z.ltb_ge, Hm).
  vm_compute. reflexivity.
Qed.

Lemma run_cycles_zeros (n : nat) :
  run_cycles (repeat 0%float n) sensor_ready = sensor_ready.
Proof.
  unfold run_cycles. induction n as [| n IH]; [reflexivity |].
  cbn [repeat fold_left].
  change (loop_update sensor_ready 0%float) with sensor_ready. exact IH.
Qed.

(** C4, at readings of exactly 0.  A reading of 0 is not negative, and it
    is what [hcsr04_read_one] returns when the two time stamps are equal;
    the loop's test [d > 0] does not count it.  From the struct
    [hcsr04_init] leaves ([good_count] = 0, below the threshold), under a
    clock that stands still, every trip of the loop reads 0 and leaves the
    struct as it was: after HCSR04_VALID_SAMPLES = 4 trips, and after any
    number of them, [good_count] is still 0 and
    [hcsr04_is_distance_valid] is false. *)
Theorem zero_readings_never_validate :
  (0 <=? 0)%float = true /\
  accepted 0%float = false /\
  good_count sensor_ready < HCSR04_VALID_SAMPLES /\
  (forall w : World,
      exists w' : World,
        hcsr04_read_one kernel_frozen sensor_ready w = Ok 0%float w') /\
  (forall (n : nat) (w : World),
      exists w' : World,
        hcsr04_loop kernel_frozen n sensor_ready w
        = Ok (run_cycles (repeat 0%float n) sensor_ready) w' /\
        good_count (run_cycles (repeat 0%float n) sensor_ready) = 0 /\
        hcsr04_is_distance_valid (run_cycles (repeat 0%float n) sensor_ready)
          w' = Ok false w') /\
  hcsr04_loop kernel_frozen 4 sensor_ready world_ready
  = Ok (run_cycles [0%float; 0%float; 0%float; 0%float] sensor_ready)
       world_after_zeros /\
  hcsr04_is_distance_valid
    (run_cycles [0%float; 0%float; 0%float; 0%float] sensor_ready)
    world_after_zeros
  = Ok false world_after_zeros.
Proof.
  assert (Hread : forall w : World,
             exists w' : World,
               hcsr04_read_one kernel_frozen sensor_ready w = Ok 0%float w').
  { intros w.
    destruct (read_one_frozen_clock sensor_ready w) as (w' & H & _);
      [cbn; lia | cbn; lia | cbn; lia |].
    exists w'. exact H. }
  split; [reflexivity |]. split; [reflexivity |].
  split; [unfold HCSR04_VALID_SAMPLES; cbn; lia |].
  split; [exact Hread |].
  split; [| split].
  - intros n. induction n as [| n IH]; intros w.
    + exists w. repeat split.
    + destruct (Hread w) as (w1 & H1).
      pose proof (loop_body_after_read _ _ _ _ _ H1) as Hbody.
      change (loop_update sensor_ready 0%float) with sensor_ready in Hbody.
      destruct (IH (log_call (EvUsleep (to_useconds (cycle_usec sensor_ready)))
                      w1)) as (w' & Hloop & _ & _).
      exists w'. rewrite !run_cycles_zeros in *.
      split; [| split; [reflexivity | reflexivity]].
      cbn [hcsr04_loop]. change (stop sensor_ready) with false. cbv iota.
      unfold bind at 1. rewrite Hbody. exact Hloop.
  - vm_compute. reflexivity.
  - reflexivity.
Qed.

(** X7.  On a struct whose sound line holds no descriptor,
    [hcsr04_read_one] stops at the assertion of [gpiopin_set] before any
    call is made, whatever the stop flag; the loop does so when the stop
    flag is clear, and returns without a trip when it is set.  The structs
    that [hcsr04_create] returns (before [hcsr04_init]) and those that
    [hcsr04_uninit] returns are such structs: on them [hcsr04_read_one]
    stops at the assertion. *)
Theorem read_one_without_descriptor_aborts (K : Kernel) (self : HCSR04)
    (w : World) :
  value_fd (gpiopin_sound self) < 0 ->
  hcsr04_read_one K self w = Abort "self->value_fd >= 0" w /\
  (forall n : nat,
      stop self = false ->
      hcsr04_loop K (S n) self w = Abort "self->value_fd >= 0" w) /\
  (forall n : nat,
      stop self = true -> hcsr04_loop K n self w = Ok self w) /\
  (forall (sound_pin echo_pin cycle_msec : Z) (smoothing : float)
          (s : HCSR04) (w0 w1 : World),
      hcsr04_create sound_pin echo_pin cycle_msec smoothing w0 = Ok s w1 ->
      hcsr04_read_one K s w = Abort "self->value_fd >= 0" w) /\
  (forall (s s' : HCSR04) (w0 w1 : World),
      hcsr04_uninit K s w0 = Ok s' w1 ->
      stop s' = true /\
      value_fd (gpiopin_sound s') = -1 /\
      hcsr04_read_one K s' w = Abort "self->value_fd >= 0" w /\
      hcsr04_read_one K s' w1 = Abort "self->value_fd >= 0" w1).
Proof.
  intros Hfd.
  pose proof (hcsr04_read_one_no_descriptor K self w Hfd) as Hread.
  split; [exact Hread |]. split; [| split; [| split]].
  - intros n Hstop. cbn [hcsr04_loop]. rewrite Hstop.
    unfold bind at 1, hcsr04_loop_body, bind at 1. rewrite Hread.
    reflexivity.
  - intros n Hstop. destruct n; cbn [hcsr04_loop]; [reflexivity |].
    rewrite Hstop. reflexivity.
  - intros sound_pin echo_pin cycle_msec smoothing s w0 w1 Hc.
    apply hcsr04_read_one_no_descriptor.
    unfold hcsr04_create, gpiopin_create, bind, ret in Hc.
    inversion Hc; subst. cbn. lia.
  - intros s s' w0 w1 Hun.
    destruct (hcsr04_uninit_run K s w0) as (w2 & r1 & r2 & Hrun & _).
    rewrite Hun in Hrun. inversion Hrun; subst s' w2. clear Hrun.
    split; [reflexivity |]. split; [reflexivity |].
    split; apply hcsr04_read_one_no_descriptor; cbn; lia.
Qed.

Lemma read_one_without_descriptor_aborts_witness :
  hcsr04_read_one kernel_ok sensor_stopped world_stopped
  = Abort "self->value_fd >= 0" world_stopped /\
  stop sensor_stopped = true /\
  hcsr04_read_one kernel_ok sensor_created world0
  = Abort "self->value_fd >= 0" world0 /\
  hcsr04_loop kernel_ok 1 sensor_created world0
  = Abort "self->value_fd >= 0" world0.
Proof.
  assert (H1 : value_fd (gpiopin_sound sensor_stopped) < 0)
    by (vm_compute; reflexivity).
  assert (H2 : value_fd (gpiopin_sound sensor_created) < 0)
    by (vm_compute; reflexivity).
  split;
    [exact (proj1 (read_one_without_descriptor_aborts kernel_ok
                     sensor_stopped world_stopped H1)) |].
  split; [reflexivity |].
  destruct (read_one_without_descriptor_aborts kernel_ok sensor_created
              world0 H2) as (Hread & Hloop & _).
  split; [exact Hread | exact (Hloop 0%nat eq_refl)].
Defined.

Lemma hcsr04_init_resets (K : Kernel) (self self1 : HCSR04)
    (error ok : bool) (e : option string) (w w1 : World) :
  hcsr04_init K self error w = Ok (ok, self1, e) w1 ->
  good_count self1 = 0.
Proof.
  intros Hinit.
  destruct (hcsr04_init_run K self error w)
    as (ok_echo & echo & e0 & w0 & _ & Hrest).
  destruct ok_echo.
  - destruct Hrest as (ok_sound & sound & e_sound & w2 & _ & Hrest).
    cbv zeta in Hrest.
    destruct (0 <=? value_fd sound); rewrite Hinit in Hrest;
      [| discriminate Hrest].
    inversion Hrest; subst. reflexivity.
  - rewrite Hinit in Hrest. inversion Hrest; subst. reflexivity.
Qed.

(** X8.  [hcsr04_uninit] after a successful [hcsr04_init] of a struct
    whose sound line held no descriptor: it returns, sets the stop flag,
    closes the sound line's descriptor and then the echo line's, each
    followed by the unexport write of its line, leaves both lines without
    descriptor, and the descriptor table is what it was before
    [hcsr04_init]. *)
Theorem init_then_uninit_restores_descriptors (K : Kernel)
    (self self1 : HCSR04) (error : bool) (e : option string) (w w1 : World) :
  value_fd (gpiopin_sound self) < 0 ->
  hcsr04_init K self error w = Ok (true, self1, e) w1 ->
  exists (self2 : HCSR04) (w2 : World) (r1 r2 : WriteOutcome),
    hcsr04_uninit K self1 w1 = Ok self2 w2 /\
    w_fds w2 = w_fds w /\
    stop self2 = true /\
    value_fd (gpiopin_sound self2) = -1 /\
    value_fd (gpiopin_echo self2) = -1 /\
    w_log w2 =
    [EvWriteFile unexport_file
       (snprintf50 (dec (pin (gpiopin_echo self)))) r2;
     EvClose (value_fd (gpiopin_echo self1));
     EvWriteFile unexport_file
       (snprintf50 (dec (pin (gpiopin_sound self)))) r1;
     EvClose (value_fd (gpiopin_sound self1))] ++ w_log w1.
Proof.
  intros Hfresh Hinit.
  destruct (hcsr04_init_success K self self1 error e w w1 Hfresh Hinit)
    as (Hve & Hvs & Hpe & Hps & Hf1 & _ & _).
  destruct (hcsr04_uninit_run K self1 w1) as (w2 & r1 & r2 & Hun & Hf2 & Hl2).
  pose proof (next_fd_nonneg (w_fds w)) as Hn1.
  pose proof (next_fd_nonneg (next_fd (w_fds w) :: w_fds w)) as Hn2.
  assert (Hs : (0 <=? value_fd (gpiopin_sound self1)) = true)
    by (rewrite Hvs; apply Z.leb_le; lia).
  assert (He : (0 <=? value_fd (gpiopin_echo self1)) = true)
    by (rewrite Hve; apply Z.leb_le; lia).
  rewrite Hs, He in Hf2, Hl2.
  eexists. exists w2, r1, r2. split; [exact Hun |].
  split; [| split; [reflexivity | split; [reflexivity | split]]].
  - rewrite Hf2, Hf1, Hvs, remove_next_fd, Hve, remove_next_fd.
    reflexivity.
  - reflexivity.
  - rewrite Hl2, Hpe, Hps. reflexivity.
Qed.

Lemma init_then_uninit_restores_descriptors_witness :
  exists (self2 : HCSR04) (w2 : World),
    hcsr04_uninit kernel_ok sensor_ready world_ready = Ok self2 w2 /\
    w_fds w2 = w_fds world0 /\
    stop self2 = true.
Proof.
  assert (Hfresh : value_fd (gpiopin_sound sensor_created) < 0)
    by (cbn; lia).
  assert (Hinit : hcsr04_init kernel_ok sensor_created true world0
                  = Ok (true, sensor_ready, None) world_ready)
    by (vm_compute; reflexivity).
  destruct (init_then_uninit_restores_descriptors kernel_ok sensor_created
              sensor_ready true None world0 world_ready Hfresh Hinit)
    as (self2 & w2 & _ & _ & Hun & Hf & Hstop & _).
  exists self2, w2. repeat split; assumption.
Defined.

(** X9.  A sensor cannot be started again.  [hcsr04_uninit] sets the stop
    flag and [hcsr04_init] does not clear it, so after an [hcsr04_init]
    that follows an [hcsr04_uninit] the loop returns at once, without a
    call and without a reading, and [hcsr04_get_distance] returns -1. *)
Theorem restart_never_measures (K : Kernel) (self self2 self3 : HCSR04)
    (error ok : bool) (e : option string) (w w2 w3 : World) (n : nat) :
  hcsr04_uninit K self w = Ok self2 w2 ->
  hcsr04_init K self2 error w2 = Ok (ok, self3, e) w3 ->
  stop self3 = true /\
  hcsr04_loop K n self3 w3 = Ok self3 w3 /\
  hcsr04_get_distance self3 w3 = Ok (-1)%float w3.
Proof.
  intros Hun Hinit.
  destruct (hcsr04_uninit_run K self w) as (w2' & r1 & r2 & Hun' & _).
  rewrite Hun in Hun'. inversion Hun'; subst self2 w2'. clear Hun'.
  pose proof (hcsr04_init_keeps_stop _ _ _ _ _ _ _ _ Hinit) as Hstop.
  cbn [stop set_gpiopin_echo set_gpiopin_sound set_stop] in Hstop.
  split; [exact Hstop |].
  split; [apply hcsr04_loop_stopped, Hstop |].
  apply get_distance_invalid.
  rewrite (hcsr04_init_resets _ _ _ _ _ _ _ _ Hinit). reflexivity.
Qed.

Lemma restart_never_measures_witness :
  hcsr04_init kernel_ok sensor_stopped true world_stopped
  = Ok (true, sensor_restarted, None) world_restarted /\
  hcsr04_loop kernel_ok 5 sensor_restarted world_restarted
  = Ok sensor_restarted world_restarted.
Proof.
  assert (Hun : hcsr04_uninit kernel_ok sensor_ready world_ready
                = Ok sensor_stopped world_stopped)
    by (vm_compute; reflexivity).
  assert (Hinit : hcsr04_init kernel_ok sensor_stopped true world_stopped
                  = Ok (true, sensor_restarted, None) world_restarted)
    by (vm_compute; reflexivity).
  split; [exact Hinit |].
  exact (proj1 (proj2 (restart_never_measures kernel_ok sensor_ready
                         sensor_stopped sensor_restarted true true None
                         world_ready world_stopped world_restarted 5
                         Hun Hinit))).
Defined.

(** X10.  [hcsr04_destroy] returns for every struct.  It closes each
    descriptor a line holds once (the sound line's, then the echo
    line's) and never a second time, although it makes the unexport write
    of each line twice: once in [hcsr04_uninit] and once more in
    [gpiopin_destroy]. *)
Theorem destroy_closes_each_descriptor_once (K : Kernel) (self : HCSR04)
    (w : World) :
  let sound := gpiopin_sound self in
  let echo := gpiopin_echo self in
  let unexport p r :=
    EvWriteFile unexport_file (snprintf50 (dec (pin p))) r in
  exists (self' : HCSR04) (w' : World) (r1 r2 r3 r4 : WriteOutcome),
    hcsr04_destroy K self w = Ok self' w' /\
    stop self' = true /\
    value_fd (gpiopin_sound self') = -1 /\
    value_fd (gpiopin_echo self') = -1 /\
    w_log w' =
    unexport echo r4 :: unexport sound r3 :: unexport echo r2
    :: (if 0 <=? value_fd echo then [EvClose (value_fd echo)] else [])
    ++ unexport sound r1
    :: (if 0 <=? value_fd sound then [EvClose (value_fd sound)] else [])
    ++ w_log w.
Proof.
  intros sound echo unexport. unfold hcsr04_destroy.
  destruct (hcsr04_uninit_run K self w) as (w1 & r1 & r2 & Hun & _ & Hl1).
  unfold bind at 1. rewrite Hun. cbv beta iota.
  set (self1 := set_gpiopin_echo _ _).
  change (gpiopin_sound self1) with (set_value_fd sound (-1)).
  destruct (gpiopin_uninit_run K (set_value_fd sound (-1)) w1)
    as (w2 & r3 & H3 & _ & Hl2).
  unfold gpiopin_destroy at 1. unfold bind at 1. rewrite H3. cbv beta iota.
  change (gpiopin_echo
            (set_gpiopin_sound self1
               (set_value_fd (set_value_fd sound (-1)) (-1))))
    with (set_value_fd echo (-1)).
  destruct (gpiopin_uninit_run K (set_value_fd echo (-1)) w2)
    as (w3 & r4 & H4 & _ & Hl3).
  unfold gpiopin_destroy at 1. unfold bind at 1. rewrite H4. cbv beta iota.
  unfold ret. eexists. exists w3, r1, r2, r3, r4.
  split; [reflexivity |].
  split; [reflexivity |]. split; [reflexivity |]. split; [reflexivity |].
  rewrite Hl3, Hl2, Hl1. reflexivity.
Qed.

(** X11.  While the loop accepts no reading, the estimate stays what it
    was: after any run of readings none of which passes the test, [avg] and
    every field but [good_count] are unchanged, and [good_count] has gone
    down by the length of the run, stopping at 0. *)
Theorem outage_keeps_estimate (self : HCSR04) (ds : list float) :
  0 <= good_count self <= HCSR04_VALID_SAMPLES ->
  Forall (fun d => accepted d = false) ds ->
  run_cycles ds self
  = set_good_count self
      (Z.max 0 (good_count self - Z.of_nat (List.length ds))) /\
  avg (run_cycles ds self) = avg self.
Proof.
  intros Hgc Hall.
  assert (Hrun : run_cycles ds self
                 = set_good_count self
                     (Z.max 0 (good_count self - Z.of_nat (List.length ds)))).
  { revert self Hgc. unfold run_cycles.
    induction Hall as [| d ds Hd Hds IH]; intros self Hgc.
    - cbn [fold_left List.length]. change (Z.of_nat 0) with 0.
      replace (Z.max 0 (good_count self - 0)) with (good_count self) by lia.
      destruct self; reflexivity.
    - cbn [fold_left List.length].
      pose proof (count_ok_int self Hgc) as Hi.
      rewrite (loop_update_rejected self d Hd) by lia.
      rewrite IH.
      + unfold set_good_count. cbn [good_count sound_pin echo_pin max_time
          pthread stop gpiopin_sound gpiopin_echo cycle_usec avg smoothing].
        f_equal. lia.
      + cbn [good_count set_good_count]. lia. }
  split; [exact Hrun |]. rewrite Hrun. reflexivity.
Qed.

Lemma outage_keeps_estimate_witness :
  avg (run_cycles [(-1)%float; 0%float; (-1)%float] sensor_tracking) = 1%float.
Proof.
  assert (Hgc : 0 <= good_count sensor_tracking <= HCSR04_VALID_SAMPLES)
    by (vm_compute; split; discriminate).
  assert (Hall : Forall (fun d => accepted d = false)
                        [(-1)%float; 0%float; (-1)%float])
    by (repeat constructor).
  exact (proj2 (outage_keeps_estimate sensor_tracking _ Hgc Hall)).
Defined.

(** X12.  [gpiopin_init] does not notice a direction it could not set:
    when the export file and the value file open but the direction file
    does not, it still returns TRUE with the descriptor of the value file,
    and no message. *)
Theorem init_ignores_direction_failure (K : Kernel) (self : GPIOPin)
    (dir : GPIOPinDirection) (error : bool) (w : World) (m : string) :
  let pin_text := snprintf50 (dec (pin self)) in
  let dfile := gpio_file (pin self) "/direction" in
  let vfile := gpio_file (pin self) "/value" in
  let exported := k_write_file K (w_tick w) export_file pin_text in
  (forall m', exported <> CantOpen m') ->
  k_write_file K (S (w_tick w)) dfile (direction_text dir) = CantOpen m ->
  k_open K (S (S (w_tick w))) vfile (value_flags dir) = None ->
  exists w' : World,
    gpiopin_init K self dir error w
    = Ok (true, set_value_fd self (next_fd (w_fds w)), None) w' /\
    w_fds w' = next_fd (w_fds w) :: w_fds w /\
    w_log w' =
    [EvOpen vfile (value_flags dir) (next_fd (w_fds w));
     EvWriteFile dfile (direction_text dir) (CantOpen m);
     EvWriteFile export_file pin_text exported] ++ w_log w.
Proof.
  intros pin_text dfile vfile exported Hexp Hdir Hopen.
  rewrite gpiopin_init_unfold. cbv zeta.
  fold pin_text dfile vfile.
  pose proof (next_fd_nonneg (w_fds w)) as Hfd.
  assert (Hleb : (0 <=? next_fd (w_fds w)) = true) by (apply Z.leb_le; lia).
  unfold bind, gpiopin_write_to_file, bind, sys_fopen_write_close,
    strerror_errno, sys_open, ret.
  cbn [w_tick w_fds w_errno w_log]. fold exported.
  destruct exported as [m' | | m'] eqn:Hex.
  - exfalso. exact (Hexp m' eq_refl).
  - cbn [w_tick w_fds w_errno w_log]. rewrite Hdir.
    cbn [w_tick w_fds w_errno w_log]. rewrite Hopen, Hleb.
    eexists. split; [reflexivity |]. split; reflexivity.
  - cbn [w_tick w_fds w_errno w_log]. rewrite Hdir.
    cbn [w_tick w_fds w_errno w_log]. rewrite Hopen, Hleb.
    eexists. split; [reflexivity |]. split; reflexivity.
Qed.

Lemma init_ignores_direction_failure_witness :
  exists w' : World,
    gpiopin_init kernel_no_direction (mkGPIOPin 17 (-1)) GPIOPIN_OUT true
      world0
    = Ok (true, mkGPIOPin 17 3, None) w'.
Proof.
  destruct (init_ignores_direction_failure kernel_no_direction
              (mkGPIOPin 17 (-1)) GPIOPIN_OUT true world0
              "Permission denied")
    as (w' & Hrun & _).
  - intros m'. vm_compute. discriminate.
  - vm_compute. reflexivity.
  - reflexivity.
  - exists w'. exact Hrun.
Defined.

(** ** The 50-byte buffers *)

Lemma substring_whole (s : string) :
  forall n : nat, (String.length s <= n)%nat -> String.substring 0 n s = s.
Proof.
  induction s as [| c s IH]; intros [| n] H; cbn in *;
    try reflexivity; try lia.
  f_equal. apply IH. lia.
Qed.

Lemma of_uint_acc_lower (d : Decimal.uint) :
  forall acc : positive,
    Z.pos acc * 10 ^ Z.of_nat (Decimal.nb_digits d)
    <= Z.pos (Pos.of_uint_acc d acc).
Proof.
  induction d as [| d IH | d IH | d IH | d IH | d IH | d IH | d IH | d IH
                  | d IH | d IH]; intros acc;
    cbn [Pos.of_uint_acc Decimal.nb_digits];
    [ cbn; lia | .. ];
    rewrite Nat2Z.inj_succ, Z.pow_succ_r by lia;
    match goal with
    | |- _ <= Z.pos (Pos.of_uint_acc d ?a) => specialize (IH a)
    end;
    assert (0 < 10 ^ Z.of_nat (Decimal.nb_digits d))
      by (apply Z.pow_pos_nonneg; lia);
    nia.
Qed.

Lemma nzhead_not_zero_headed (d d' : Decimal.uint) :
  Decimal.nzhead d <> Decimal.D0 d'.
Proof.
  induction d; cbn [Decimal.nzhead]; try discriminate. exact IHd.
Qed.

Lemma to_uint_digits (p : positive) :
  Z.pos p < 10 ^ 10 -> (Decimal.nb_digits (Pos.to_uint p) <= 10)%nat.
Proof.
  intros Hp.
  pose proof (DecimalPos.Unsigned.of_to p) as Hof.
  pose proof (DecimalPos.Unsigned.to_of (Pos.to_uint p)) as Hnorm.
  rewrite Hof in Hnorm. cbn [N.to_uint] in Hnorm.
  assert (Hbound : forall (l : Decimal.uint) (k : positive),
             Pos.of_uint_acc l k = p ->
             (S (Decimal.nb_digits l) <= 10)%nat).
  { intros l k Hk.
    pose proof (of_uint_acc_lower l k) as Hlow. rewrite Hk in Hlow.
    destruct (le_lt_dec (Decimal.nb_digits l) 9) as [Hle | Hgt]; [lia |].
    exfalso.
    assert (10 ^ 10 <= 10 ^ Z.of_nat (Decimal.nb_digits l))
      by (apply Z.pow_le_mono_r; lia).
    nia. }
  destruct (Pos.to_uint p) as [| l | l | l | l | l | l | l | l | l | l];
    cbn [Pos.of_uint] in Hof; cbn [Decimal.nb_digits];
    try (injection Hof as Hof; exact (Hbound _ _ Hof)).
  - discriminate Hof.
  - exfalso. unfold Decimal.unorm in Hnorm.
    cbn [Decimal.nzhead] in Hnorm.
    destruct (Decimal.nzhead l) eqn:Hnz; try discriminate Hnorm.
    + injection Hnorm as ->. cbn in Hof. discriminate Hof.
    + exact (nzhead_not_zero_headed _ _ Hnz).
Qed.

Lemma append_length (s1 s2 : string) :
  String.length (s1 ++ s2) = (String.length s1 + String.length s2)%nat.
Proof. induction s1; cbn; congruence. Qed.

Lemma string_of_uint_length (d : Decimal.uint) :
  String.length (NilEmpty.string_of_uint d) = Decimal.nb_digits d.
Proof. induction d; cbn; congruence. Qed.

Lemma dec_length (n : Z) : is_int n -> (String.length (dec n) <= 11)%nat.
Proof.
  unfold is_int, INT_MIN, INT_MAX, dec.
  change (2 ^ 31) with 2147483648. intros H.
  destruct n as [| p | p]; cbn [Z.to_int NilZero.string_of_int].
  - cbn. lia.
  - assert (Hd : (Decimal.nb_digits (Pos.to_uint p) <= 10)%nat)
      by (apply to_uint_digits; change (10 ^ 10) with 10000000000; lia).
    unfold NilZero.string_of_uint.
    destruct (Pos.to_uint p) eqn:Hu;
      try (rewrite string_of_uint_length; lia).
    cbn. lia.
  - assert (Hd : (Decimal.nb_digits (Pos.to_uint p) <= 10)%nat)
      by (apply to_uint_digits; change (10 ^ 10) with 10000000000; lia).
    unfold NilZero.string_of_uint. cbn [String.length].
    destruct (Pos.to_uint p) eqn:Hu;
      try (rewrite string_of_uint_length; lia).
    cbn. lia.
Qed.

(** X13.  The 50-byte buffers are never too small: for every [int] line
    number the decimal text has at most 11 characters, so the text written
    to the export and unexport files is the whole number and the paths of
    the direction, value and edge files are whole. *)
Theorem gpio_paths_fit_buffer (p : Z) :
  is_int p ->
  (String.length (dec p) <= 11)%nat /\
  snprintf50 (dec p) = dec p /\
  gpio_file p "/direction"
  = ("/sys/class/gpio/gpio" ++ dec p ++ "/direction")%string /\
  gpio_file p "/value" = ("/sys/class/gpio/gpio" ++ dec p ++ "/value")%string /\
  gpio_file p "/edge" = ("/sys/class/gpio/gpio" ++ dec p ++ "/edge")%string.
Proof.
  intros H. pose proof (dec_length p H) as Hlen.
  split; [exact Hlen |].
  unfold gpio_file, snprintf50.
  repeat split; apply substring_whole;
    rewrite ?append_length; cbn [String.length]; lia.
Qed.

Lemma gpio_paths_fit_buffer_witness :
  gpio_file (-2147483648) "/direction"
  = "/sys/class/gpio/gpio-2147483648/direction"%string.
Proof.
  assert (H : is_int (-2147483648))
    by (unfold is_int, INT_MIN, INT_MAX; cbn; lia).
  exact (proj1 (proj2 (proj2 (gpio_paths_fit_buffer (-2147483648) H)))).
Defined.

(** ** Descriptors that are overwritten *)






(** X15.  A successful [hcsr04_init] does not mean the loop can run.  When
    the edge file of the echo line does not open, [hcsr04_read_one] stops
    at the assertion of [gpiopin_set_trigger] after the pulse has been
    sent, and the loop stops with it. *)
Theorem read_one_aborts_when_edge_unavailable (K : Kernel) (self : HCSR04)
    (w : World) (n : nat) (err : string) :
  let sound := value_fd (gpiopin_sound self) in
  let edge := gpio_file (pin (gpiopin_echo self)) "/edge" in
  0 <= sound ->
  stop self = false ->
  k_open K (3 + w_tick w) edge O_WRONLY = Some err ->
  exists w' : World,
    hcsr04_read_one K self w = Abort "f >= 0" w' /\
    hcsr04_loop K (S n) self w = Abort "f >= 0" w' /\
    w_fds w' = w_fds w /\
    w_log w' = [EvOpen edge O_WRONLY (-1);
                EvWrite sound "0"; EvUsleep 100; EvWrite sound "1"]
               ++ w_log w.
Proof.
  intros sound edge Hs Hstop Hopen. cbn [Nat.add] in Hopen.
  assert (Hread : exists w',
             hcsr04_read_one K self w = Abort "f >= 0" w' /\
             w_fds w' = w_fds w /\
             w_log w' = [EvOpen edge O_WRONLY (-1);
                         EvWrite sound "0"; EvUsleep 100; EvWrite sound "1"]
                        ++ w_log w).
  { unfold hcsr04_read_one.
    unfold bind at 1. rewrite gpiopin_set_run by assumption. cbv beta iota.
    unfold bind at 1. unfold usleep at 1, emit at 1. cbv beta iota.
    unfold bind at 1. rewrite gpiopin_set_run by assumption. cbv beta iota.
    fold sound.
    set (w0 := log_call _ (log_call _ (log_call _ w))).
    pose proof (gpiopin_set_trigger_cases K (gpiopin_echo self)
                  GPIOPIN_RISING w0) as H1.
    cbv zeta in H1. fold edge in H1.
    change (w_tick w0) with (S (S (S (w_tick w)))) in H1.
    rewrite Hopen in H1.
    unfold bind at 1. rewrite H1.
    eexists. split; [reflexivity |]. split; reflexivity. }
  destruct Hread as (w' & Hread & Hf & Hl).
  exists w'. split; [exact Hread |]. split; [| split; assumption].
  cbn [hcsr04_loop]. rewrite Hstop.
  unfold bind at 1, hcsr04_loop_body, bind at 1. rewrite Hread. reflexivity.
Qed.

Lemma read_one_aborts_when_edge_unavailable_witness :
  hcsr04_init kernel_no_edge sensor_created true world0
  = Ok (true, sensor_ready, None) world_ready /\
  exists w' : World,
    hcsr04_loop kernel_no_edge 1 sensor_ready world_ready
    = Abort "f >= 0" w'.
Proof.
  split; [vm_compute; reflexivity |].
  assert (Hs : 0 <= value_fd (gpiopin_sound sensor_ready)) by (cbn; lia).
  destruct (read_one_aborts_when_edge_unavailable kernel_no_edge sensor_ready
              world_ready 0 "Permission denied" Hs eq_refl eq_refl)
    as (w' & _ & Hloop & _).
  exists w'. exact Hloop.
Defined.

(** ** What a valid estimate tells *)

(** X16.  When [hcsr04_is_distance_valid] holds after at least one trip of
    the loop, the latest reading passed the loop's test, and the estimate
    [hcsr04_get_distance] returns is that reading weighted by
    1 - smoothing plus the previous estimate weighted by smoothing. *)
Theorem valid_means_last_reading_accepted (self : HCSR04)
    (ds : list float) (d : float) (w : World) :
  0 <= good_count self <= HCSR04_VALID_SAMPLES ->
  hcsr04_is_distance_valid (run_cycles (ds ++ [d]) self) w = Ok true w ->
  accepted d = true /\
  hcsr04_get_distance (run_cycles (ds ++ [d]) self) w
  = Ok (d * (1 - smoothing self)
        + avg (run_cycles ds self) * smoothing self)%float w.
Proof.
  intros Hgc Hvalid.
  assert (Hlast : run_cycles (ds ++ [d]) self
                  = loop_update (run_cycles ds self) d)
    by (unfold run_cycles; rewrite fold_left_app; reflexivity).
  pose proof (count_ok_run ds self Hgc) as Hok.
  pose proof (count_ok_int _ Hok) as Hint.
  rewrite Hlast in *.
  rewrite is_distance_valid_spec in Hvalid.
  assert (Hfull : HCSR04_VALID_SAMPLES
                  <= good_count (loop_update (run_cycles ds self) d)).
  { inversion Hvalid as [Hb]. apply Z.leb_le. exact Hb. }
  rewrite good_count_step in Hfull by exact Hok.
  destruct (accepted d) eqn:Hd.
  - split; [reflexivity |].
    unfold hcsr04_get_distance, bind. rewrite is_distance_valid_spec.
    inversion Hvalid as [Hb]. rewrite Hb.
    rewrite loop_update_accepted by (auto; lia).
    assert (Hsm : smoothing (run_cycles ds self) = smoothing self)
      by (rewrite (run_cycles_frame ds self); reflexivity).
    unfold ret. cbn [avg set_good_count set_avg]. rewrite Hsm. reflexivity.
  - exfalso. unfold count_ok, HCSR04_VALID_SAMPLES in *. lia.
Qed.

Lemma valid_means_last_reading_accepted_witness :
  accepted 1.01%float = true /\
  hcsr04_get_distance
    (run_cycles ([1%float; 1.02%float; 0.98%float] ++ [1.01%float])
                sensor_created) world_ready
  = Ok 0.93999999999999995%float world_ready.
Proof.
  assert (Hgc : 0 <= good_count sensor_created <= HCSR04_VALID_SAMPLES)
    by (vm_compute; split; discriminate).
  assert (Hvalid : hcsr04_is_distance_valid
                     (run_cycles ([1%float; 1.02%float; 0.98%float]
                                    ++ [1.01%float]) sensor_created)
                     world_ready = Ok true world_ready)
    by (vm_compute; reflexivity).
  destruct (valid_means_last_reading_accepted sensor_created
              [1%float; 1.02%float; 0.98%float] 1.01%float world_ready
              Hgc Hvalid) as (Hacc & Hdist).
  split; [exact Hacc |].
  rewrite Hdist. vm_compute. reflexivity.
Defined.
